(** * Connection latency monitoring

    A shallow embedding of
      - [lib/utils/diagnostics/latency/monitor.go] (package [latency]):
        [MonitorConfig.CheckAndSetDefaults], [NewMonitor], [Monitor.GetStats],
        [Monitor.Run], [Monitor.pingLoop], [NewWebsocketPinger] and
        [WebSocketPinger.Ping];
      - [LatencyDiagnostic.tsx]: [latencyColors].

    Sequential code is embedded as functions.  The goroutines of [Monitor.Run]
    are embedded as an executable interleaving machine: a state, an event per
    scheduling choice or answer of the environment, and a partial step
    function that is [None] when the event is not enabled. *)

From Stdlib Require Import ZArith List String Bool Lia.
Import ListNotations.
Open Scope Z_scope.

(* ================================================================== *)
(** * LatencyDiagnostic.tsx *)

Module LatencyDiagnostic.

Definition warnThreshold : Z := 150.
Definition errorThreshold : Z := 400.

(** [enum latencyColor]. *)
Inductive latencyColor := ok | warn | error.

(** The object [{ client, server, total }] returned by [latencyColors]. *)
Record Colors := mkColors {
  client : latencyColor;
  server : latencyColor;
  total  : latencyColor }.

(** The inner function [colorForLatency]. *)
Definition colorForLatency (l : Z) : latencyColor :=
  if l >=? errorThreshold then error
  else if l >=? warnThreshold then warn
  else ok.

Definition latencyColors (client server : Z) : Colors :=
  let clientColor := colorForLatency client in
  let serverColor := colorForLatency server in
  (* any + red = red *)
  if (client >=? errorThreshold) || (server >=? errorThreshold) then
    mkColors clientColor serverColor error
  (* yellow + yellow = yellow *)
  else if (client >=? warnThreshold) && (server >=? warnThreshold) then
    mkColors clientColor serverColor warn
  (* green + yellow = yellow *)
  else if ((client >=? warnThreshold) || (server >=? warnThreshold))
          && ((client <? warnThreshold) || (server <? warnThreshold)) then
    mkColors clientColor serverColor warn
  (* green + green = green *)
  else mkColors clientColor serverColor ok.

End LatencyDiagnostic.

(* ================================================================== *)
(** * Go's [time] package, as far as the monitor uses it *)

Module GoTime.

(** [time.Duration]: an int64 count of nanoseconds. *)
Definition Duration := Z.
(** [time.Time]: nanoseconds since a fixed epoch. *)
Definition Time := Z.

Definition Millisecond : Duration := 1000000.
Definition Second : Duration := 1000 * Millisecond.

Definition minDuration : Duration := - 2 ^ 63.
Definition maxDuration : Duration := 2 ^ 63 - 1.

(** [t.Sub(u)]: the difference, saturated to the range of a Duration. *)
Definition Sub (t u : Time) : Duration :=
  let d := t - u in
  if d <? minDuration then minDuration
  else if maxDuration <? d then maxDuration
  else d.

(** [d.Milliseconds()]: int64 division by 1e6, truncated toward zero. *)
Definition Milliseconds (d : Duration) : Z := Z.quot d 1000000.

End GoTime.

(* ================================================================== *)
(** * monitor.go: configuration and construction *)

Module Latency.
Import GoTime.

(** Go's [error] values: [trace.BadParameter(msg)], and the errors that
    the collaborators return. *)
Inductive Error :=
| BadParameter (msg : string)
| Failure (msg : string).

(** Implementations of the interfaces, known by a handle; a [nil]
    interface value is [None]. *)
Inductive Pinger := PingerImpl (id : nat).
Inductive Reporter := ReporterImpl (id : nat).
Inductive Clock := RealClock | FakeClock (id : nat).

Record Statistics := mkStatistics {
  Client : Z;
  Server : Z }.

Record MonitorConfig := mkMonitorConfig {
  ClientPinger   : option Pinger;
  ServerPinger   : option Pinger;
  Reporter_      : option Reporter;
  Clock_         : option Clock;
  PingInterval   : Duration;
  ReportInterval : Duration }.

Definition isNil {A} (o : option A) : bool :=
  match o with None => true | Some _ => false end.

(** [(c *MonitorConfig) CheckAndSetDefaults() error]: the receiver is
    updated in place, so the function returns the configuration as it is
    left behind, next to the error ([None] is [nil]). *)
Definition CheckAndSetDefaults (c : MonitorConfig) : MonitorConfig * option Error :=
  if isNil (ClientPinger c) then
    (c, Some (BadParameter "client pinger not provided to MonitorConfig"))
  else if isNil (ServerPinger c) then
    (c, Some (BadParameter "server pinger not provided to MonitorConfig"))
  else if isNil (Reporter_ c) then
    (c, Some (BadParameter "reporter not provided to MonitorConfig"))
  else
    let c1 :=
      if PingInterval c <=? 0 then
        mkMonitorConfig (ClientPinger c) (ServerPinger c) (Reporter_ c) (Clock_ c)
                        (8 * Second) (ReportInterval c)
      else c in
    let c2 :=
      if ReportInterval c1 <=? 0 then
        mkMonitorConfig (ClientPinger c1) (ServerPinger c1) (Reporter_ c1) (Clock_ c1)
                        (PingInterval c1) (10 * Second)
      else c1 in
    let c3 :=
      if isNil (Clock_ c2) then
        mkMonitorConfig (ClientPinger c2) (ServerPinger c2) (Reporter_ c2) (Some RealClock)
                        (PingInterval c2) (ReportInterval c2)
      else c2 in
    (c3, None).

Definition pingKey : string := "ping-ticker".
Definition reportingKey : string := "reporting-ticker".

(** [interval.SubInterval[string]]. *)
Record SubInterval := mkSubInterval {
  Key           : string;
  FirstDuration : Duration;
  Jitter        : Duration -> Duration;
  Duration_     : Duration }.

(** [interval.MultiInterval[string]], seen as what it was built from. *)
Record MultiInterval := mkMultiInterval {
  mi_clock : option Clock;
  mi_subs  : list SubInterval }.

Fixpoint distinct (ks : list string) : bool :=
  match ks with
  | [] => true
  | k :: r => negb (existsb (String.eqb k) r) && distinct r
  end.

(** Modelled from the spec: [interval.NewMulti], of package
    [lib/utils/interval], is not among the sources.  The spec (4.1): the
    source is constructed from a Clock and a list of SubInterval configs;
    each SubInterval must have a unique Key, and constructing with duplicate
    keys is a configuration error at construction time, fatal to the
    caller.  [None] is that fatal failure. *)
Definition NewMulti (clock : option Clock) (subs : list SubInterval)
  : option MultiInterval :=
  if distinct (map Key subs) then Some (mkMultiInterval clock subs) else None.

(** [type Monitor struct].  The interface-typed fields hold what the
    configuration held; the two [atomic.Int64] fields are part of the
    struct and start at Go's zero value. *)
Record Monitor := mkMonitor {
  clientPinger  : option Pinger;
  serverPinger  : option Pinger;
  reporter      : option Reporter;
  clock         : option Clock;
  ticker        : MultiInterval;
  clientLatency : Z;
  serverLatency : Z }.

(** What a call of [NewMonitor] does: it returns a Monitor pointer and an
    error, or it does not return at all when the interval source cannot be
    built. *)
Inductive Outcome :=
| Ret (m : option Monitor) (err : option Error)
| Fatal.

Section Construction.
(** The package-level jitters of [retryutils]. *)
Variables seventhJitter fullJitter halfJitter : Duration -> Duration.

Definition NewMonitor (cfg : MonitorConfig) : Outcome :=
  match CheckAndSetDefaults cfg with
  | (_, Some err) => Ret None (Some err)      (* trace.Wrap(err) *)
  | (cfg, None) =>
      match NewMulti (Clock_ cfg)
              [ mkSubInterval pingKey (fullJitter (500 * Millisecond))
                              seventhJitter (PingInterval cfg);
                mkSubInterval reportingKey (halfJitter (1500 * Millisecond))
                              seventhJitter (ReportInterval cfg) ] with
      | Some tk =>
          Ret (Some {| clientPinger := ClientPinger cfg;
                       serverPinger := ServerPinger cfg;
                       reporter := Reporter_ cfg;
                       ticker := tk;
                       clock := Clock_ cfg;
                       clientLatency := 0;
                       serverLatency := 0 |}) None
      | None => Fatal
      end
  end.
End Construction.

(** [(m *Monitor) GetStats() Statistics]. *)
Definition GetStats (m : Monitor) : Statistics :=
  mkStatistics (clientLatency m) (serverLatency m).

(* ------------------------------------------------------------------ *)
(** ** [Monitor.Run] and its two [pingLoop] goroutines *)

Inductive Leg := ClientLeg | ServerLeg.

(** Where a [pingLoop] goroutine stands. *)
Inductive LoopState :=
| NotSpawned
| AtSelect                (* blocked in the select of its for loop *)
| InPing (then_ : Time)   (* inside [pinger.Ping(ctx)] for the signal [then] *)
| Exited.                 (* returned from [pingLoop] *)

(** Where the goroutine that called [Run] stands. *)
Inductive RunState := NotStarted | Running | Returned.

(** What the goroutines do to their collaborators, newest first. *)
Inductive Effect :=
| EPing (l : Leg)                 (* [pinger.Ping(ctx)] is invoked *)
| EPingReturned (l : Leg)         (* that call has returned *)
| EStore (l : Leg) (v : Z)        (* [latency.Store(v)] *)
| EReport (st : Statistics)       (* [m.reporter.Report(ctx, st)] *)
| EWarn (msg : string)            (* [log.WithError(err).Warn(msg)] *)
| ETickerStop                     (* the deferred [m.ticker.Stop()] *)
| EReturn.                        (* [Run] returns to its caller *)

Record State := mkState {
  mon        : Monitor;
  ctxDone    : bool;             (* [ctx] has been canceled *)
  run        : RunState;
  clientC    : list Time;        (* [make(chan time.Time, 1)], oldest first *)
  serverC    : list Time;
  clientLoop : LoopState;
  serverLoop : LoopState;
  effects    : list Effect }.

(** Capacity of [clientC] and [serverC]. *)
Definition chanCap : nat := 1.

Definition pingC (l : Leg) (s : State) : list Time :=
  match l with ClientLeg => clientC s | ServerLeg => serverC s end.

Definition loopOf (l : Leg) (s : State) : LoopState :=
  match l with ClientLeg => clientLoop s | ServerLeg => serverLoop s end.

Definition latencyOf (l : Leg) (m : Monitor) : Z :=
  match l with ClientLeg => clientLatency m | ServerLeg => serverLatency m end.

Definition set_pingC (l : Leg) (c : list Time) (s : State) : State :=
  match l with
  | ClientLeg => mkState (mon s) (ctxDone s) (run s) c (serverC s)
                         (clientLoop s) (serverLoop s) (effects s)
  | ServerLeg => mkState (mon s) (ctxDone s) (run s) (clientC s) c
                         (clientLoop s) (serverLoop s) (effects s)
  end.

Definition set_loop (l : Leg) (st : LoopState) (s : State) : State :=
  match l with
  | ClientLeg => mkState (mon s) (ctxDone s) (run s) (clientC s) (serverC s)
                         st (serverLoop s) (effects s)
  | ServerLeg => mkState (mon s) (ctxDone s) (run s) (clientC s) (serverC s)
                         (clientLoop s) st (effects s)
  end.

(** [latency.Store(v)] on the field of leg [l]. *)
Definition Store (l : Leg) (v : Z) (m : Monitor) : Monitor :=
  match l with
  | ClientLeg => mkMonitor (clientPinger m) (serverPinger m) (reporter m) (clock m)
                           (ticker m) v (serverLatency m)
  | ServerLeg => mkMonitor (clientPinger m) (serverPinger m) (reporter m) (clock m)
                           (ticker m) (clientLatency m) v
  end.

Definition set_mon (m : Monitor) (s : State) : State :=
  mkState m (ctxDone s) (run s) (clientC s) (serverC s)
          (clientLoop s) (serverLoop s) (effects s).

Definition set_run (r : RunState) (s : State) : State :=
  mkState (mon s) (ctxDone s) r (clientC s) (serverC s)
          (clientLoop s) (serverLoop s) (effects s).

Definition cancel (s : State) : State :=
  mkState (mon s) true (run s) (clientC s) (serverC s)
          (clientLoop s) (serverLoop s) (effects s).

Definition emit (e : Effect) (s : State) : State :=
  mkState (mon s) (ctxDone s) (run s) (clientC s) (serverC s)
          (clientLoop s) (serverLoop s) (e :: effects s).

(** Leaving [Run]: the deferred [m.ticker.Stop()] runs, then the caller
    gets control back. *)
Definition doReturn (s : State) : State :=
  emit EReturn (emit ETickerStop (set_run Returned s)).

(** Outcome of
    [select { case c <- t: ; case <-ctx.Done(): return ; default: }].
    Go takes a ready case, any of them when several are ready, and
    [default] only when none is. *)
Inductive SendOutcome := Sent | SawDone | Skipped.

Definition trySend (c : list Time) (t : Time) (done pickDone : bool)
  : list Time * SendOutcome :=
  let room := (List.length c <? chanCap)%nat in
  match room, done with
  | true, true   => if pickDone then (c, SawDone) else (c ++ [t], Sent)
  | true, false  => (c ++ [t], Sent)
  | false, true  => (c, SawDone)
  | false, false => (c, Skipped)
  end.

(** What the environment decides while [Run] handles one tick: which case
    each inner select takes when both the send and [ctx.Done()] are ready,
    and whether [Report] returns an error. *)
Record Oracle := mkOracle {
  pickDoneClient : bool;
  pickDoneServer : bool;
  reportFails    : bool }.

(** What [pinger.Ping(ctx)] returns: an error, or [nil], in which case
    [m.clock.Now()] is read and gives [now]. *)
Inductive PingResult := PingErr | PingOk (now : Time).

Inductive Event :=
| Cancel                                          (* the caller cancels [ctx] *)
| RunStart                                        (* the caller invokes [m.Run(ctx)] *)
| RunTick (key : string) (t : Time) (o : Oracle)  (* [Run] takes [tick := <-m.ticker.Next()] *)
| RunDone                                         (* [Run] takes [<-ctx.Done()] *)
| LoopRecv (l : Leg)                              (* [pingLoop] takes [then := <-pingC] *)
| LoopDone (l : Leg)                              (* [pingLoop] takes [<-ctx.Done()] *)
| PingReturn (l : Leg) (r : PingResult).          (* [pinger.Ping(ctx)] returns *)

Definition step (s : State) (e : Event) : option State :=
  match e with
  | Cancel => Some (cancel s)
  | RunStart =>
      match run s with
      | NotStarted =>
          Some (set_loop ServerLeg AtSelect
                 (set_loop ClientLeg AtSelect
                   (set_pingC ServerLeg [] (set_pingC ClientLeg [] (set_run Running s)))))
      | _ => None
      end
  | RunTick key t o =>
      match run s with
      | Running =>
          if String.eqb key pingKey then
            (* Ping the client *)
            let (c1, r1) := trySend (clientC s) t (ctxDone s) (pickDoneClient o) in
            let s1 := set_pingC ClientLeg c1 s in
            match r1 with
            | SawDone => Some (doReturn s1)
            | _ =>
                (* Ping the server *)
                let (c2, r2) := trySend (serverC s1) t (ctxDone s1) (pickDoneServer o) in
                let s2 := set_pingC ServerLeg c2 s1 in
                match r2 with
                | SawDone => Some (doReturn s2)
                | _ => Some s2
                end
            end
          else if String.eqb key reportingKey then
            let s1 := emit (EReport (GetStats (mon s))) s in
            Some (if reportFails o
                  then emit (EWarn "failed to report latency stats") s1
                  else s1)
          else Some s
      | _ => None
      end
  | RunDone =>
      match run s with
      | Running => if ctxDone s then Some (doReturn s) else None
      | _ => None
      end
  | LoopRecv l =>
      match loopOf l s, pingC l s with
      | AtSelect, then_ :: rest =>
          Some (emit (EPing l) (set_loop l (InPing then_) (set_pingC l rest s)))
      | _, _ => None
      end
  | LoopDone l =>
      match loopOf l s with
      | AtSelect =>
          (* [case <-ctx.Done():] has an empty body: the for loop goes round *)
          if ctxDone s then Some s else None
      | _ => None
      end
  | PingReturn l r =>
      match loopOf l s with
      | InPing then_ =>
          let s1 := emit (EPingReturned l) s in
          match r with
          | PingErr =>
              Some (set_loop l AtSelect
                     (emit (EWarn "unexpected failure sending ping") s1))
          | PingOk now =>
              let v := Milliseconds (Sub now then_) in
              Some (set_loop l AtSelect
                     (emit (EStore l v) (set_mon (Store l v (mon s1)) s1)))
          end
      | _ => None
      end
  end.

Fixpoint exec (s : State) (evs : list Event) : option State :=
  match evs with
  | [] => Some s
  | e :: r => match step s e with Some s' => exec s' r | None => None end
  end.

(** A Monitor as [NewMonitor] returns it, before [Run] is called. *)
Definition init (m : Monitor) : State :=
  mkState m false NotStarted [] [] NotSpawned NotSpawned [].

(** The clock is monotonic along a run: whenever a ping succeeds,
    [m.clock.Now()] is not before the time stamp of the tick it answers. *)
Definition clockOk (s : State) (e : Event) : bool :=
  match e with
  | PingReturn l (PingOk now) =>
      match loopOf l s with InPing then_ => then_ <=? now | _ => true end
  | _ => true
  end.

Fixpoint monotonic (s : State) (evs : list Event) : bool :=
  match evs with
  | [] => true
  | e :: r =>
      clockOk s e &&
      match step s e with Some s' => monotonic s' r | None => true end
  end.

Definition isPing (l : Leg) (e : Effect) : bool :=
  match e, l with
  | EPing ClientLeg, ClientLeg | EPing ServerLeg, ServerLeg => true
  | _, _ => false
  end.

Definition isPingReturned (l : Leg) (e : Effect) : bool :=
  match e, l with
  | EPingReturned ClientLeg, ClientLeg | EPingReturned ServerLeg, ServerLeg => true
  | _, _ => false
  end.

(** Number of [Ping] calls of leg [l] that were invoked and have not
    returned. *)
Definition inFlightOf (l : Leg) (tr : list Effect) : Z :=
  Z.of_nat (List.length (filter (isPing l) tr))
  - Z.of_nat (List.length (filter (isPingReturned l) tr)).

Definition inFlight (l : Leg) (s : State) : Z := inFlightOf l (effects s).

(** The effects that happened after [Run] returned (all of them when it has
    not returned). *)
Fixpoint afterReturn (tr : list Effect) : list Effect :=
  match tr with
  | [] => []
  | EReturn :: _ => []
  | e :: r => e :: afterReturn r
  end.

(* ------------------------------------------------------------------ *)
(** ** [WebSocketPinger] *)

(** A pong handler, [func(appData string) error]. *)
Definition PongHandler := string -> option Error.

(** [type WebSocket interface], seen as the handler it carries. *)
Record WebSocket := mkWebSocket {
  wsPongHandler : option PongHandler }.

(** The errors [Ping] returns: [trace.Wrap(err, "sending ping message")] and
    [trace.Wrap(ctx.Err())]. *)
Inductive PingError :=
| ErrSendingPing (err : Error)
| ErrCtx.

(** Capacity of [pongC], [make(chan string, 1)]. *)
Definition pongCap : nat := 1.

(** The closure that [NewWebsocketPinger] installs with [SetPongHandler]:
    a non-blocking send of the payload to [pongC], then the handler that was
    installed before, if any. *)
Definition installedHandler (handler : option PongHandler)
    (pongC : list string) (payload : string) : list string * option Error :=
  let pongC' :=
    if (List.length pongC <? pongCap)%nat then (pongC ++ [payload])%list else pongC in
  match handler with
  | None => (pongC', None)
  | Some h => (pongC', h payload)
  end.

(** Where one call of [Ping] stands. *)
Inductive CallState :=
| NotCalled
| Waiting (payload : string)             (* in the for/select loop *)
| Finished (err : option PingError).     (* returned [err] *)

(** A pinger, the context of one [Ping] call and the socket. *)
Record WSState := mkWSState {
  pongC     : list string;               (* oldest first *)
  wsClock   : Clock;
  prev      : option PongHandler;        (* [handler], captured by the closure *)
  wsCtxDone : bool;
  call      : CallState;
  written   : list (Z * string * Time);  (* [WriteControl] calls, newest first *)
  returns   : list (option PingError) }. (* returns of [Ping], newest first *)

(** [NewWebsocketPinger(clock, ws)]; the context is not canceled yet. *)
Definition NewWebsocketPinger (clock : option Clock) (ws : option WebSocket)
  : option WSState * option Error :=
  match ws with
  | None => (None, Some (BadParameter "web socket not provided to WebSocketPinger"))
  | Some ws =>
      let clock := match clock with None => RealClock | Some c => c end in
      (Some (mkWSState [] clock (wsPongHandler ws) false NotCalled [] []), None)
  end.

Definition websocketPingMessage : Z := 9.

Inductive WSEvent :=
| WSCancel                       (* the caller cancels [ctx] *)
| WSPong (payload : string)      (* a pong frame arrives: the installed handler runs *)
| WSCall (uuid : string) (now : Time) (werr : option Error)
    (* [Ping(ctx)] is called: [uuid.NewString()] gives [uuid], [s.clock.Now()]
       gives [now], [WriteControl] returns [werr] *)
| WSSelPong                      (* the select takes [pong := <-s.pongC] *)
| WSSelDone.                     (* the select takes [<-ctx.Done()] *)

Definition ws_finish (err : option PingError) (pongC' : list string) (s : WSState)
  : WSState :=
  mkWSState pongC' (wsClock s) (prev s) (wsCtxDone s) (Finished err)
            (written s) (err :: returns s).

Definition ws_step (s : WSState) (e : WSEvent) : option WSState :=
  match e with
  | WSCancel =>
      Some (mkWSState (pongC s) (wsClock s) (prev s) true (call s)
                      (written s) (returns s))
  | WSPong payload =>
      Some (mkWSState (fst (installedHandler (prev s) (pongC s) payload))
                      (wsClock s) (prev s) (wsCtxDone s) (call s)
                      (written s) (returns s))
  | WSCall uuid now werr =>
      match call s with
      | NotCalled =>
          let payload := uuid in
          let deadline := now + 2 * Second in
          let s1 := mkWSState (pongC s) (wsClock s) (prev s) (wsCtxDone s) (call s)
                              ((websocketPingMessage, payload, deadline) :: written s)
                              (returns s) in
          match werr with
          | Some err => Some (ws_finish (Some (ErrSendingPing err)) (pongC s1) s1)
          | None =>
              Some (mkWSState (pongC s1) (wsClock s1) (prev s1) (wsCtxDone s1)
                              (Waiting payload) (written s1) (returns s1))
          end
      | _ => None
      end
  | WSSelPong =>
      match call s, pongC s with
      | Waiting payload, pong :: rest =>
          if String.eqb pong payload
          then Some (ws_finish None rest s)
          else Some (mkWSState rest (wsClock s) (prev s) (wsCtxDone s)
                               (Waiting payload) (written s) (returns s))
      | _, _ => None
      end
  | WSSelDone =>
      match call s with
      | Waiting _ => if wsCtxDone s then Some (ws_finish (Some ErrCtx) (pongC s) s) else None
      | _ => None
      end
  end.

Fixpoint ws_exec (s : WSState) (evs : list WSEvent) : option WSState :=
  match evs with
  | [] => Some s
  | e :: r => match ws_step s e with Some s' => ws_exec s' r | None => None end
  end.

(* ------------------------------------------------------------------ *)
(** ** The caller of [GetStats]

    [GetStats] returns a [Statistics] struct by value.  The caller keeps it in
    a variable of its own and may assign to its fields. *)

Record Caller := mkCaller {
  c_mon   : Monitor;       (* the Monitor behind the pointer [m] *)
  c_stats : Statistics }.  (* [stats := m.GetStats()] *)

Definition callGetStats (m : Monitor) : Caller := mkCaller m (GetStats m).

Inductive Assign :=
| AssignClient (v : Z)     (* [stats.Client = v] *)
| AssignServer (v : Z).    (* [stats.Server = v] *)

Definition assign (c : Caller) (a : Assign) : Caller :=
  match a with
  | AssignClient v => mkCaller (c_mon c) (mkStatistics v (Server (c_stats c)))
  | AssignServer v => mkCaller (c_mon c) (mkStatistics (Client (c_stats c)) v)
  end.

End Latency.

(* ================================================================== *)
(** * Properties *)

Import GoTime.
Import Latency.

(* ------------------------------------------------------------------ *)
(** ** Threshold classification *)

Section Classification.
Import LatencyDiagnostic.

Lemma colorForLatency_spec (l : Z) :
  (colorForLatency l = error <-> 400 <= l) /\
  (colorForLatency l = warn <-> 150 <= l < 400) /\
  (colorForLatency l = ok <-> l < 150).
Proof.
  unfold colorForLatency, errorThreshold, warnThreshold.
  destruct (Z.geb_spec l 400) as [He | He];
    [ | destruct (Z.geb_spec l 150) as [Hw | Hw] ];
    (repeat split; intros; try discriminate; try reflexivity; lia).
Qed.

(** C3.  For all non-negative integers [client] and [server],
    [latencyColors client server] gives each leg the colour warn iff the leg
    is at least 150 and below 400, error iff it is at least 400, and ok
    otherwise (below 150); the total is error iff some leg is at least 400,
    warn iff some leg is at least 150 and none is at least 400, and ok
    otherwise; in particular the total is warn when both legs are in
    [150, 400).  [latencyColors] is a function: it gives a result on every
    input. *)
Theorem C3_latencyColors_classification (client server : Z)
    (Hclient : 0 <= client) (Hserver : 0 <= server) :
  let r := latencyColors client server in
  (LatencyDiagnostic.client r = warn <-> 150 <= client < 400) /\
  (LatencyDiagnostic.client r = error <-> 400 <= client) /\
  (LatencyDiagnostic.client r = ok <-> client < 150) /\
  (LatencyDiagnostic.server r = warn <-> 150 <= server < 400) /\
  (LatencyDiagnostic.server r = error <-> 400 <= server) /\
  (LatencyDiagnostic.server r = ok <-> server < 150) /\
  (total r = error <-> (400 <= client \/ 400 <= server)) /\
  (total r = warn <->
     ((150 <= client \/ 150 <= server) /\ ~ 400 <= client /\ ~ 400 <= server)) /\
  (total r = ok <-> (client < 150 /\ server < 150)) /\
  (150 <= client < 400 -> 150 <= server < 400 -> total r = warn).
Proof.
  intros r.
  assert (Hr : LatencyDiagnostic.client r = colorForLatency client
               /\ LatencyDiagnostic.server r = colorForLatency server).
  { unfold r, latencyColors.
    destruct (_ || _); [ split; reflexivity | ].
    destruct (_ && _); [ split; reflexivity | ].
    destruct (_ && _); split; reflexivity. }
  destruct Hr as [-> ->].
  destruct (colorForLatency_spec client) as (Hce & Hcw & Hco).
  destruct (colorForLatency_spec server) as (Hse & Hsw & Hso).
  do 6 (split; [ assumption | ]).
  unfold r, latencyColors, errorThreshold, warnThreshold.
  destruct (Z.geb_spec client 400), (Z.geb_spec server 400),
           (Z.geb_spec client 150), (Z.geb_spec server 150),
           (Z.ltb_spec client 150), (Z.ltb_spec server 150);
    try lia; cbn;
    (repeat split; intros; try discriminate; try reflexivity; lia).
Qed.

Lemma C3_witness :
  0 <= 399 /\ 0 <= 150 /\ total (latencyColors 399 150) = warn.
Proof.
  split; [ lia | split; [ lia | ] ].
  apply (C3_latencyColors_classification 399 150); lia.
Defined.

End Classification.

(* ------------------------------------------------------------------ *)
(** ** Configuration and construction *)

(** The configuration [CheckAndSetDefaults] leaves behind when it
    succeeds. *)
Definition defaulted (cfg : MonitorConfig) : MonitorConfig :=
  mkMonitorConfig
    (ClientPinger cfg) (ServerPinger cfg) (Reporter_ cfg)
    (match Clock_ cfg with None => Some RealClock | Some c => Some c end)
    (if PingInterval cfg <=? 0 then 8 * Second else PingInterval cfg)
    (if ReportInterval cfg <=? 0 then 10 * Second else ReportInterval cfg).

Definition missingDependency (cfg : MonitorConfig) : Prop :=
  ClientPinger cfg = None \/ ServerPinger cfg = None \/ Reporter_ cfg = None.

Lemma CheckAndSetDefaults_present (cfg : MonitorConfig) :
  ~ missingDependency cfg ->
  CheckAndSetDefaults cfg = (defaulted cfg, None).
Proof.
  unfold missingDependency, CheckAndSetDefaults, defaulted.
  destruct cfg as [cp sp rp ck pi ri]; cbn.
  destruct cp; [ | tauto ]. destruct sp; [ | tauto ]. destruct rp; [ | tauto ].
  intros _; cbn.
  destruct (pi <=? 0); cbn; destruct (ri <=? 0); cbn; destruct ck; reflexivity.
Qed.

Lemma CheckAndSetDefaults_missing (cfg : MonitorConfig) :
  missingDependency cfg ->
  exists msg, CheckAndSetDefaults cfg = (cfg, Some (BadParameter msg)).
Proof.
  unfold missingDependency, CheckAndSetDefaults.
  destruct cfg as [cp sp rp ck pi ri]; cbn.
  destruct cp; cbn; [ | eexists; reflexivity ].
  destruct sp; cbn; [ | eexists; reflexivity ].
  destruct rp; cbn; [ | eexists; reflexivity ].
  intros [H | [H | H]]; discriminate H.
Qed.

Lemma missingDependency_dec (cfg : MonitorConfig) :
  missingDependency cfg \/ ~ missingDependency cfg.
Proof.
  unfold missingDependency.
  destruct (ClientPinger cfg), (ServerPinger cfg), (Reporter_ cfg);
    try (left; tauto).
  right; intros [H | [H | H]]; discriminate H.
Qed.

Section ConfigurationProperties.
Variables seventhJitter fullJitter halfJitter : Duration -> Duration.

(** The Monitor that [NewMonitor] builds from a valid configuration. *)
Definition built (cfg : MonitorConfig) : Monitor :=
  let cfg' := defaulted cfg in
  {| clientPinger := ClientPinger cfg;
     serverPinger := ServerPinger cfg;
     reporter := Reporter_ cfg;
     clock := Clock_ cfg';
     ticker :=
       mkMultiInterval (Clock_ cfg')
         [ mkSubInterval pingKey (fullJitter (500 * Millisecond))
                         seventhJitter (PingInterval cfg');
           mkSubInterval reportingKey (halfJitter (1500 * Millisecond))
                         seventhJitter (ReportInterval cfg') ];
     clientLatency := 0;
     serverLatency := 0 |}.

(** C7.  [NewMonitor] returns an error, and no Monitor, exactly when
    ClientPinger, ServerPinger or Reporter is missing; otherwise it returns a
    Monitor and no error, whose ping interval is 8 seconds when none is
    supplied, whose report interval is 10 seconds when none is supplied
    (a supplied positive interval is kept) and whose clock is the real clock
    when none is supplied. *)
Theorem C7_NewMonitor_error_iff_missing (cfg : MonitorConfig) :
  ((exists err, NewMonitor seventhJitter fullJitter halfJitter cfg
                = Ret None (Some err))
   <-> missingDependency cfg) /\
  ((exists m, NewMonitor seventhJitter fullJitter halfJitter cfg
              = Ret (Some m) None)
   <-> ~ missingDependency cfg) /\
  (~ missingDependency cfg ->
   NewMonitor seventhJitter fullJitter halfJitter cfg = Ret (Some (built cfg)) None /\
   map Duration_ (mi_subs (ticker (built cfg)))
     = [ if PingInterval cfg <=? 0 then 8 * Second else PingInterval cfg;
         if ReportInterval cfg <=? 0 then 10 * Second else ReportInterval cfg ] /\
   (PingInterval cfg = 0 ->
      map Duration_ (firstn 1 (mi_subs (ticker (built cfg)))) = [8000000000]) /\
   (ReportInterval cfg = 0 ->
      map Duration_ (skipn 1 (mi_subs (ticker (built cfg)))) = [10000000000]) /\
   (Clock_ cfg = None -> clock (built cfg) = Some RealClock) /\
   (forall c, Clock_ cfg = Some c -> clock (built cfg) = Some c)).
Proof.
  assert (Hok : ~ missingDependency cfg ->
                NewMonitor seventhJitter fullJitter halfJitter cfg
                = Ret (Some (built cfg)) None).
  { intros H. unfold NewMonitor.
    rewrite (CheckAndSetDefaults_present cfg H). reflexivity. }
  assert (Hko : missingDependency cfg ->
                exists err, NewMonitor seventhJitter fullJitter halfJitter cfg
                            = Ret None (Some err)).
  { intros H. unfold NewMonitor.
    destruct (CheckAndSetDefaults_missing cfg H) as [msg ->].
    eexists; reflexivity. }
  destruct (missingDependency_dec cfg) as [Hm | Hp].
  - destruct (Hko Hm) as [err Herr].
    split; [ split; [ intros _; exact Hm | intros _; exists err; exact Herr ] | ].
    split; [ | intros H; contradiction ].
    split; [ intros [m Hm']; rewrite Herr in Hm'; discriminate Hm'
           | intros H; contradiction ].
  - specialize (Hok Hp).
    split; [ split; [ intros [err Herr]; rewrite Hok in Herr; discriminate Herr
                    | intros H; contradiction ] | ].
    split; [ split; [ intros _; exact Hp | intros _; eexists; exact Hok ] | ].
    intros _. split; [ exact Hok | ].
    split; [ reflexivity | ].
    split; [ intros H0; cbn; rewrite H0; reflexivity | ].
    split; [ intros H0; cbn; rewrite H0; reflexivity | ].
    split; [ intros H0; cbn; rewrite H0; reflexivity | ].
    intros c H0; cbn; rewrite H0; reflexivity.
Qed.

End ConfigurationProperties.

Section DefaultingProperties.

(** C10, as amended.  For every MonitorConfig whose ClientPinger,
    ServerPinger and Reporter are present, [CheckAndSetDefaults] replaces a
    PingInterval or ReportInterval that is zero or negative with the
    default (8 seconds and 10 seconds) and returns success; whatever the
    intervals are, negative included, they never make it return an error. *)
Theorem C10_nonpositive_intervals_defaulted (cfg : MonitorConfig)
    (Hclient : ClientPinger cfg <> None)
    (Hserver : ServerPinger cfg <> None)
    (Hreporter : Reporter_ cfg <> None) :
  (exists cfg',
     CheckAndSetDefaults cfg = (cfg', None) /\
     PingInterval cfg'
       = (if PingInterval cfg <=? 0 then 8 * Second else PingInterval cfg) /\
     ReportInterval cfg'
       = (if ReportInterval cfg <=? 0 then 10 * Second else ReportInterval cfg)) /\
  (forall ping report,
     snd (CheckAndSetDefaults
            (mkMonitorConfig (ClientPinger cfg) (ServerPinger cfg) (Reporter_ cfg)
                             (Clock_ cfg) ping report)) = None).
Proof.
  split.
  - exists (defaulted cfg). split; [ | split; reflexivity ].
    apply CheckAndSetDefaults_present.
    unfold missingDependency; intros [H | [H | H]]; contradiction.
  - intros ping report.
    rewrite CheckAndSetDefaults_present; [ reflexivity | ].
    unfold missingDependency; cbn; intros [H | [H | H]]; contradiction.
Qed.

(** A configuration with its three dependencies and a negative ping
    interval. *)
Definition cfg_negative_ping : MonitorConfig :=
  mkMonitorConfig (Some (PingerImpl 1)) (Some (PingerImpl 2)) (Some (ReporterImpl 1))
                  None (- 3 * Second) 0.

Lemma C10_witness :
  exists cfg',
    CheckAndSetDefaults cfg_negative_ping = (cfg', None) /\
    PingInterval cfg' = 8000000000 /\ ReportInterval cfg' = 10000000000.
Proof.
  destruct (C10_nonpositive_intervals_defaulted cfg_negative_ping)
    as [[cfg' [H1 [H2 H3]]] _]; try (cbn; discriminate).
  exists cfg'. split; [ exact H1 | split; [ exact H2 | exact H3 ] ].
Defined.

(** The same negative ping interval in a configuration without a client
    pinger. *)
Definition cfg_no_client : MonitorConfig :=
  mkMonitorConfig None (Some (PingerImpl 2)) (Some (ReporterImpl 1))
                  None (- 3 * Second) 0.

(** C10 as stated fails at [cfg_no_client]: the call does not return success
    and the negative interval is left in place. *)
Lemma C10_counterexample :
  CheckAndSetDefaults cfg_no_client
  = (cfg_no_client,
     Some (BadParameter "client pinger not provided to MonitorConfig")) /\
  PingInterval (fst (CheckAndSetDefaults cfg_no_client)) = -3000000000.
Proof. split; reflexivity. Qed.

End DefaultingProperties.

(* ------------------------------------------------------------------ *)
(** ** The run loop and the measurement tasks *)

(** Case analysis of one step: every [match] and [if] that decides the
    result is split, impossible branches are closed, and the equation of
    the reached state is used. *)
Ltac split_step H :=
  repeat match type of H with
         | context [match ?x with _ => _ end] => destruct x eqn:?
         end;
  try discriminate H;
  try (injection H as H; subst).

Lemma trySend_cases (c : list Time) (t : Time) (done pickDone : bool) :
  trySend c t done pickDone = (c ++ [t], Sent) /\ c = []
  \/ trySend c t done pickDone = (c, SawDone) /\ done = true
  \/ trySend c t done pickDone = (c, Skipped) /\ c <> [] /\ done = false.
Proof.
  unfold trySend, chanCap.
  destruct c as [ | x c ]; cbn.
  - destruct done; [ destruct pickDone | ]; auto.
  - destruct done; [ right; left; auto | right; right; repeat split; congruence ].
Qed.

(** What one step does to the place of a [pingLoop] goroutine. *)
Lemma step_loops (s s' : State) (e : Event) (l : Leg) :
  step s e = Some s' ->
  loopOf l s' = loopOf l s
  \/ (e = RunStart /\ loopOf l s' = AtSelect)
  \/ (e = LoopRecv l /\ loopOf l s = AtSelect /\
      exists then_ rest, pingC l s = then_ :: rest /\ loopOf l s' = InPing then_)
  \/ (exists r then_, e = PingReturn l r /\ loopOf l s = InPing then_ /\
      loopOf l s' = AtSelect).
Proof.
  intros H. destruct e; cbn in H.
  - injection H as <-. left; destruct l; reflexivity.
  - split_step H. right; left; destruct l; auto.
  - split_step H; left; destruct l; reflexivity.
  - split_step H; left; destruct l; reflexivity.
  - split_step H.
    destruct l, l0; cbn in *;
      try (left; reflexivity);
      right; right; left; repeat split; eauto.
  - split_step H. left; reflexivity.
  - split_step H;
      destruct l, l0; cbn in *;
        try (left; reflexivity);
        right; right; right; eauto.
Qed.

(** The [pingLoop] goroutines never return: no step leads to [Exited]. *)
Lemma pingLoop_never_exits (s : State) (evs : list Event) (s' : State) (l : Leg) :
  exec s evs = Some s' -> loopOf l s <> Exited -> loopOf l s' <> Exited.
Proof.
  revert s. induction evs as [ | e evs IH ]; intros s H Hs; cbn in H.
  - injection H as <-. exact Hs.
  - destruct (step s e) as [s1 | ] eqn:Hstep; [ | discriminate H ].
    apply (IH s1 H).
    destruct (step_loops s s1 e l Hstep)
      as [-> | [[_ ->] | [(_ & _ & th & r & _ & ->) | (r & th & _ & _ & ->)]]];
      try assumption; discriminate.
Qed.

(** A sample Monitor and a sample oracle for concrete runs. *)
Definition noJitter : Duration -> Duration := fun d => d.

Definition sampleConfig : MonitorConfig :=
  mkMonitorConfig (Some (PingerImpl 1)) (Some (PingerImpl 2)) (Some (ReporterImpl 1))
                  None 0 0.

Definition sampleMonitor : Monitor := built noJitter noJitter noJitter sampleConfig.

(** Every inner select prefers the send, and [Report] succeeds. *)
Definition calm : Oracle := mkOracle false false false.

(** C1 fails on the code.  No execution ever brings a [pingLoop] goroutine
    to its end, canceled or not; and in the run below the context is
    canceled, [Run] returns, both loops take their [ctx.Done()] case and stay
    in their select, and the client loop then takes the signal still queued
    and invokes its Pinger after [Run] has returned. *)
Theorem C1_pingLoop_outlives_Run :
  (forall m evs s l, exec (init m) evs = Some s -> loopOf l s <> Exited) /\
  (exists s,
     exec (init sampleMonitor)
          [ RunStart; RunTick pingKey 0 calm; Cancel; RunDone;
            LoopDone ClientLeg; LoopDone ServerLeg; LoopRecv ClientLeg ] = Some s /\
     ctxDone s = true /\ run s = Returned /\
     loopOf ClientLeg s = InPing 0 /\ loopOf ServerLeg s = AtSelect /\
     afterReturn (effects s) = [EPing ClientLeg]).
Proof.
  split.
  - intros m evs s l H.
    apply (pingLoop_never_exits (init m) evs s l H).
    destruct l; discriminate.
  - eexists. split; [ vm_compute; reflexivity | ].
    repeat split.
Qed.

(** The invariant of the two signal channels and of the pings in flight. *)
Definition serialized (s : State) : Prop :=
  forall l,
    (List.length (pingC l s) <= chanCap)%nat /\
    inFlight l s = match loopOf l s with InPing _ => 1 | _ => 0 end /\
    (run s = NotStarted -> loopOf l s = NotSpawned).

Lemma trySend_length (c c' : list Time) (t : Time) (done pickDone : bool)
    (r : SendOutcome) :
  trySend c t done pickDone = (c', r) ->
  (List.length c <= chanCap)%nat -> (List.length c' <= chanCap)%nat.
Proof.
  unfold trySend, chanCap.
  destruct c as [ | x c ]; cbn; intros H Hc.
  - destruct done; [ destruct pickDone | ]; injection H as <- _; cbn; lia.
  - destruct c; cbn in *; [ | lia ].
    destruct done; injection H as <- _; cbn; lia.
Qed.

Lemma serialized_init (m : Monitor) : serialized (init m).
Proof. intros l; destruct l; cbn; repeat split; (lia || reflexivity). Qed.

Lemma inFlightOf_cons (l : Leg) (e : Effect) (tr : list Effect) :
  inFlightOf l (e :: tr)
  = inFlightOf l tr + (if isPing l e then 1 else 0)
    - (if isPingReturned l e then 1 else 0).
Proof.
  unfold inFlightOf. cbn [filter].
  destruct (isPing l e), (isPingReturned l e); cbn [List.length]; lia.
Qed.

Ltac serialized_case :=
  let l := fresh "l" in
  intros l; destruct l; unfold inFlight in *;
  cbn [pingC loopOf effects run mon ctxDone clientC serverC clientLoop serverLoop
       doReturn emit set_run set_loop set_pingC set_mon cancel] in *;
  rewrite ?inFlightOf_cons; cbn [isPing isPingReturned];
  unfold chanCap in *; cbn [List.length] in *;
  repeat split; intros;
  try discriminate; try congruence; try lia; auto;
  try (exfalso;
       match goal with
       | Hx : ?a = NotStarted, Hy : ?a = NotStarted -> _ |- _ =>
           specialize (Hy Hx); discriminate Hy
       end).

Lemma serialized_step (s s' : State) (e : Event) :
  serialized s -> step s e = Some s' -> serialized s'.
Proof.
  intros Hinv H.
  destruct (Hinv ClientLeg) as (Hc1 & Hc2 & Hc3),
           (Hinv ServerLeg) as (Hs1 & Hs2 & Hs3).
  clear Hinv. unfold serialized, inFlight in *.
  destruct s as [m d r cc sc cl sl tr]; cbn in Hc1, Hc2, Hc3, Hs1, Hs2, Hs3.
  destruct e; cbn in H.
  - injection H as <-. serialized_case.
  - split_step H. rewrite (Hc3 eq_refl) in Hc2. rewrite (Hs3 eq_refl) in Hs2.
    serialized_case.
  - destruct r; try discriminate H.
    destruct (String.eqb key pingKey).
    + destruct (trySend cc t d (pickDoneClient o)) as [c1 r1] eqn:E1.
      pose proof (trySend_length _ _ _ _ _ _ E1 Hc1) as Hc1'.
      destruct (trySend sc t d (pickDoneServer o)) as [c2 r2] eqn:E2.
      pose proof (trySend_length _ _ _ _ _ _ E2 Hs1) as Hs1'.
      destruct r1; cbn in H; try rewrite E2 in H; cbn in H;
        destruct r2; injection H as <-; serialized_case.
    + destruct (String.eqb key reportingKey);
        [ destruct (reportFails o) | ]; injection H as <-; serialized_case.
  - split_step H. serialized_case.
  - destruct l; cbn in H; split_step H; serialized_case.
  - destruct l; cbn in H; split_step H; serialized_case.
  - destruct l; cbn in H; split_step H; serialized_case.
Qed.



(** Two ping ticks; the client task takes the first signal and is still
    inside its [Ping] when the second tick comes. *)
Definition second_tick_while_busy : list Event :=
  [ RunStart; RunTick pingKey 1 calm; LoopRecv ClientLeg; RunTick pingKey 2 calm ].





(* ------------------------------------------------------------------ *)
(** ** The stored measurements *)

Definition otherLeg (l : Leg) : Leg :=
  match l with ClientLeg => ServerLeg | ServerLeg => ClientLeg end.

Definition sameLeg (l l' : Leg) : bool :=
  match l, l' with
  | ClientLeg, ClientLeg | ServerLeg, ServerLeg => true
  | _, _ => false
  end.

(** The value of the most recent [latency.Store] of leg [l], if any. *)
Fixpoint lastStored (l : Leg) (tr : list Effect) : option Z :=
  match tr with
  | [] => None
  | EStore l' v :: r => if sameLeg l l' then Some v else lastStored l r
  | _ :: r => lastStored l r
  end.

Definition succeeds (l : Leg) (e : Event) : bool :=
  match e with
  | PingReturn l' (PingOk _) => sameLeg l l'
  | _ => false
  end.

Lemma Milliseconds_Sub_nonneg (now then_ : Time) :
  then_ <= now -> 0 <= Milliseconds (Sub now then_).
Proof.
  intros H. unfold Milliseconds. apply Z.quot_pos; [ | lia ].
  unfold Sub, minDuration, maxDuration.
  destruct (Z.ltb_spec (now - then_) (- 2 ^ 63)); [ lia | ].
  destruct (Z.ltb_spec (2 ^ 63 - 1) (now - then_)); lia.
Qed.

Lemma Milliseconds_Sub_zero (now then_ : Time) :
  then_ <= now ->
  (Milliseconds (Sub now then_) = 0 <-> now - then_ < 1000000).
Proof.
  intros H. unfold Milliseconds, Sub, minDuration, maxDuration.
  destruct (Z.ltb_spec (now - then_) (- 2 ^ 63)); [ lia | ].
  destruct (Z.ltb_spec (2 ^ 63 - 1) (now - then_)) as [Hbig | Hfit].
  - split; intros Hx; [ | lia ].
    vm_compute in Hx. discriminate Hx.
  - rewrite Z.quot_small_iff by lia.
    rewrite !Z.abs_eq by lia. lia.
Qed.

(** What one step does to the stored value of a leg: nothing, unless the
    step is the successful return of that leg's [Ping]. *)
Lemma step_latency (s s' : State) (e : Event) (l : Leg) :
  step s e = Some s' ->
  (succeeds l e = false /\
   latencyOf l (mon s') = latencyOf l (mon s) /\
   lastStored l (effects s') = lastStored l (effects s))
  \/ (exists then_ now,
        e = PingReturn l (PingOk now) /\ loopOf l s = InPing then_ /\
        latencyOf l (mon s') = Milliseconds (Sub now then_) /\
        lastStored l (effects s') = Some (Milliseconds (Sub now then_))).
Proof.
  intros H.
  destruct s as [m d r cc sc cl sl tr].
  destruct e; cbn in H.
  - injection H as <-. left; repeat split.
  - split_step H. left; repeat split.
  - destruct r; try discriminate H.
    destruct (String.eqb key pingKey).
    + destruct (trySend cc t d (pickDoneClient o)) as [c1 r1].
      destruct (trySend sc t d (pickDoneServer o)) as [c2 r2] eqn:E2.
      destruct r1; cbn in H; try rewrite E2 in H; cbn in H;
        destruct r2; injection H as <-; left; repeat split.
    + destruct (String.eqb key reportingKey);
        [ destruct (reportFails o) | ]; injection H as <-; left; repeat split.
  - split_step H. left; repeat split.
  - destruct l0; cbn in H; split_step H; left; repeat split.
  - destruct l0; cbn in H; split_step H; left; repeat split.
  - destruct l0, l; cbn in H; split_step H;
      try (left; repeat split; fail);
      right; do 2 eexists; repeat split.
Qed.

(** The stored value of a leg is the value of its most recent successful
    measurement, and the initial value when there is none. *)
Lemma latest_success (m0 : Monitor) (s : State) (evs : list Event) (s' : State)
    (l : Leg) :
  latencyOf l (mon s)
    = match lastStored l (effects s) with Some v => v | None => latencyOf l m0 end ->
  exec s evs = Some s' ->
  latencyOf l (mon s')
    = match lastStored l (effects s') with Some v => v | None => latencyOf l m0 end.
Proof.
  revert s. induction evs as [ | e evs IH ]; intros s Hs H; cbn in H.
  - injection H as <-. exact Hs.
  - destruct (step s e) as [s1 | ] eqn:Hstep; [ | discriminate H ].
    apply (IH s1); [ | exact H ].
    destruct (step_latency s s1 e l Hstep)
      as [(_ & -> & ->) | (th & now & _ & _ & -> & ->)];
      [ exact Hs | reflexivity ].
Qed.

(** A leg keeps its stored value as long as none of its pings succeeds. *)
Lemma latency_frame (s : State) (evs : list Event) (s' : State) (l : Leg) :
  exec s evs = Some s' ->
  existsb (succeeds l) evs = false ->
  latencyOf l (mon s') = latencyOf l (mon s).
Proof.
  revert s. induction evs as [ | e evs IH ]; intros s H Hno; cbn in H.
  - injection H as <-. reflexivity.
  - destruct (step s e) as [s1 | ] eqn:Hstep; [ | discriminate H ].
    cbn in Hno. apply orb_false_iff in Hno. destruct Hno as [He Hno].
    rewrite (IH s1 H Hno).
    destruct (step_latency s s1 e l Hstep)
      as [(_ & -> & _) | (th & now & -> & _)]; [ reflexivity | ].
    cbn in He. destruct l; discriminate He.
Qed.

(** With a monotonic clock no step stores a negative value. *)
Lemma nonneg_exec (s : State) (evs : list Event) (s' : State) (l : Leg) :
  0 <= latencyOf l (mon s) ->
  exec s evs = Some s' ->
  monotonic s evs = true ->
  0 <= latencyOf l (mon s').
Proof.
  revert s. induction evs as [ | e evs IH ]; intros s Hs H Hmono; cbn in H.
  - injection H as <-. exact Hs.
  - destruct (step s e) as [s1 | ] eqn:Hstep; [ | discriminate H ].
    cbn in Hmono. rewrite Hstep in Hmono.
    apply andb_true_iff in Hmono. destruct Hmono as [Hclock Hmono].
    apply (IH s1); [ | exact H | exact Hmono ].
    destruct (step_latency s s1 e l Hstep)
      as [(_ & -> & _) | (th & now & -> & Hloop & -> & _)]; [ exact Hs | ].
    cbn in Hclock. rewrite Hloop in Hclock.
    apply Milliseconds_Sub_nonneg. lia.
Qed.

(** C4.  When a measurement task is inside a Ping and that Ping returns an
    error, the step is taken and the Monitor is left as it was: the stored
    value of that leg is the one it had before, whatever happened since the
    leg's last successful ping, and the other leg's value is untouched.
    When the task then takes its next signal and that ping succeeds, the
    new measurement, the milliseconds elapsed since that signal's time
    stamp, is stored, the other leg's value still untouched. *)
Theorem C4_failed_ping_keeps_value (s : State) (l : Leg) (then_ : Time)
    (Hping : loopOf l s = InPing then_) :
  exists s1,
    step s (PingReturn l PingErr) = Some s1 /\
    mon s1 = mon s /\
    GetStats (mon s1) = GetStats (mon s) /\
    (forall s0 evs,
       exec s0 evs = Some s -> existsb (succeeds l) evs = false ->
       latencyOf l (mon s1) = latencyOf l (mon s0)) /\
    (forall then2 rest now,
       pingC l s1 = then2 :: rest ->
       exists s3,
         exec s1 [LoopRecv l; PingReturn l (PingOk now)] = Some s3 /\
         latencyOf l (mon s3) = Milliseconds (Sub now then2) /\
         latencyOf (otherLeg l) (mon s3) = latencyOf (otherLeg l) (mon s)).
Proof.
  destruct s as [m d r cc sc cl sl tr].
  destruct l; cbn in Hping; subst; cbn;
    (eexists; split; [ reflexivity | ]; cbn;
     split; [ reflexivity | ]; split; [ reflexivity | ]; split;
     [ intros s0 evs Hexec Hno;
       exact (latency_frame s0 evs _ _ Hexec Hno)
     | intros then2 rest now ->; cbn;
       eexists; split; [ reflexivity | ]; split; reflexivity ]).
Qed.

(** The state after two ping ticks at 1 ms and 5 ms, the client task being
    inside the [Ping] of the first. *)
Definition client_pinging : State :=
  mkState sampleMonitor false Running [5000000] [1000000]
          (InPing 1000000) AtSelect [EPing ClientLeg].

Lemma C4_witness :
  loopOf ClientLeg client_pinging = InPing 1000000 /\
  exists s1,
    step client_pinging (PingReturn ClientLeg PingErr) = Some s1 /\
    GetStats (mon s1) = mkStatistics 0 0 /\
    exists s3,
      exec s1 [LoopRecv ClientLeg; PingReturn ClientLeg (PingOk 30000000)] = Some s3 /\
      latencyOf ClientLeg (mon s3) = 25.
Proof.
  split; [ reflexivity | ].
  destruct (C4_failed_ping_keeps_value client_pinging ClientLeg 1000000 eq_refl)
    as (s1 & Hstep & _ & Hstats & _ & Hnext).
  exists s1. split; [ exact Hstep | ]. split; [ exact Hstats | ].
  destruct (Hnext 5000000 [] 30000000) as (s3 & Hexec & Hl & _).
  { injection Hstep as <-. reflexivity. }
  exists s3. split; [ exact Hexec | exact Hl ].
Defined.

Lemma NewMonitor_zero (sj fj hj : Duration -> Duration) (cfg : MonitorConfig)
    (m : Monitor) :
  NewMonitor sj fj hj cfg = Ret (Some m) None ->
  clientLatency m = 0 /\ serverLatency m = 0.
Proof.
  unfold NewMonitor.
  destruct (CheckAndSetDefaults cfg) as [cfg' [err | ]]; [ discriminate | ].
  destruct (NewMulti _ _); [ | discriminate ].
  intros H. injection H as <-. split; reflexivity.
Qed.

(** A ping tick stamped 1000 ns whose client ping succeeds at 500000 ns. *)
Definition quick_ping : list Event :=
  [ RunStart; RunTick pingKey 1000 calm; LoopRecv ClientLeg;
    PingReturn ClientLeg (PingOk 500000) ].

(** C5 as stated fails: the clock is monotonic in this run of a Monitor
    made by [NewMonitor], the client ping succeeds, and the measurement that
    is stored is zero. *)
Lemma C5_counterexample :
  NewMonitor noJitter noJitter noJitter sampleConfig = Ret (Some sampleMonitor) None /\
  monotonic (init sampleMonitor) quick_ping = true /\
  exists s,
    exec (init sampleMonitor) quick_ping = Some s /\
    effects s = [EStore ClientLeg 0; EPingReturned ClientLeg; EPing ClientLeg] /\
    clientLatency (mon s) = 0.
Proof.
  split; [ reflexivity | ].
  split; [ vm_compute; reflexivity | ].
  eexists. split; [ vm_compute; reflexivity | ].
  split; reflexivity.
Qed.

(** C5, as amended.  In every state a Monitor made by [NewMonitor] reaches
    under a monotonic clock, the stored client and server values are not
    negative; a leg whose ping never succeeded holds zero, and a leg whose
    ping succeeded holds its most recent measurement; a successful ping
    stores the whole milliseconds elapsed since the tick, which is zero
    exactly when less than one millisecond has elapsed. *)
Theorem C5_latency_never_negative
    (sj fj hj : Duration -> Duration) (cfg : MonitorConfig) (m : Monitor)
    (evs : list Event) (s : State)
    (Hnew : NewMonitor sj fj hj cfg = Ret (Some m) None)
    (Hreach : exec (init m) evs = Some s)
    (Hclock : monotonic (init m) evs = true) :
  0 <= clientLatency (mon s) /\
  0 <= serverLatency (mon s) /\
  (forall l, lastStored l (effects s) = None -> latencyOf l (mon s) = 0) /\
  (forall l v, lastStored l (effects s) = Some v -> latencyOf l (mon s) = v) /\
  (forall l then_ now,
     loopOf l s = InPing then_ -> then_ <= now ->
     exists s',
       step s (PingReturn l (PingOk now)) = Some s' /\
       latencyOf l (mon s') = Milliseconds (Sub now then_) /\
       (latencyOf l (mon s') = 0 <-> now - then_ < 1000000)).
Proof.
  destruct (NewMonitor_zero sj fj hj cfg m Hnew) as [Hc0 Hs0].
  assert (Hlast : forall l,
            latencyOf l (mon s)
            = match lastStored l (effects s) with Some v => v | None => 0 end).
  { intros l.
    rewrite (latest_success m (init m) evs s l eq_refl Hreach).
    destruct (lastStored l (effects s)); [ reflexivity | ].
    destruct l; assumption. }
  split; [ apply (nonneg_exec (init m) evs s ClientLeg); cbn; try assumption; lia | ].
  split; [ apply (nonneg_exec (init m) evs s ServerLeg); cbn; try assumption; lia | ].
  split; [ intros l Hl; rewrite (Hlast l), Hl; reflexivity | ].
  split; [ intros l v Hl; rewrite (Hlast l), Hl; reflexivity | ].
  intros l then_ now Hloop Hle.
  assert (Hstep : exists s', step s (PingReturn l (PingOk now)) = Some s').
  { unfold step. rewrite Hloop. eexists; reflexivity. }
  destruct Hstep as [s' Hstep]. exists s'. split; [ exact Hstep | ].
  destruct (step_latency s s' _ l Hstep)
    as [(Hno & _) | (th & now' & He & Hloop' & Hv & _)].
  - cbn in Hno. destruct l; discriminate Hno.
  - injection He as <-. rewrite Hloop in Hloop'. injection Hloop' as <-.
    split; [ exact Hv | ]. rewrite Hv.
    apply Milliseconds_Sub_zero. exact Hle.
Qed.

Lemma C5_witness :
  exists s,
    exec (init sampleMonitor) quick_ping = Some s /\
    0 <= clientLatency (mon s) /\ 0 <= serverLatency (mon s).
Proof.
  eexists. split; [ vm_compute; reflexivity | ].
  destruct (C5_latency_never_negative
              noJitter noJitter noJitter sampleConfig sampleMonitor quick_ping _
              eq_refl eq_refl eq_refl) as (Hc & Hs & _).
  split; [ exact Hc | exact Hs ].
Defined.

Lemma assign_keeps_monitor (muts : list Assign) (c : Caller) :
  c_mon (fold_left assign muts c) = c_mon c.
Proof.
  revert c. induction muts as [ | a muts IH ]; intros c; cbn.
  - reflexivity.
  - rewrite IH. destruct a; reflexivity.
Qed.

(** C8.  For a Monitor [m] returned by [NewMonitor], [GetStats] gives the
    zero snapshot, on [m] itself and in every state of its run in which no
    measurement has been stored yet; and whatever the caller assigns to the
    fields of the Statistics it received, the Monitor is the same and
    [GetStats] still gives the zero snapshot. *)
Theorem C8_fresh_monitor_zero_snapshot
    (sj fj hj : Duration -> Duration) (cfg : MonitorConfig) (m : Monitor)
    (Hnew : NewMonitor sj fj hj cfg = Ret (Some m) None) :
  GetStats m = mkStatistics 0 0 /\
  (forall evs s,
     exec (init m) evs = Some s ->
     (forall l, lastStored l (effects s) = None) ->
     GetStats (mon s) = mkStatistics 0 0) /\
  (forall muts : list Assign,
     let c := fold_left assign muts (callGetStats m) in
     c_mon c = m /\ GetStats (c_mon c) = mkStatistics 0 0).
Proof.
  destruct (NewMonitor_zero sj fj hj cfg m Hnew) as [Hc0 Hs0].
  assert (H0 : GetStats m = mkStatistics 0 0).
  { unfold GetStats. rewrite Hc0, Hs0. reflexivity. }
  split; [ exact H0 | ]. split.
  - intros evs s Hreach Hnone. unfold GetStats.
    pose proof (latest_success m (init m) evs s ClientLeg eq_refl Hreach) as Hc.
    pose proof (latest_success m (init m) evs s ServerLeg eq_refl Hreach) as Hs.
    rewrite (Hnone ClientLeg) in Hc. rewrite (Hnone ServerLeg) in Hs.
    cbn in Hc, Hs. rewrite Hc, Hs, Hc0, Hs0. reflexivity.
  - intros muts c. unfold c.
    rewrite assign_keeps_monitor. cbn. split; [ reflexivity | exact H0 ].
Qed.

Lemma C8_witness :
  NewMonitor noJitter noJitter noJitter sampleConfig = Ret (Some sampleMonitor) None /\
  GetStats sampleMonitor = mkStatistics 0 0 /\
  GetStats (c_mon (fold_left assign [AssignClient 7; AssignServer 9]
                             (callGetStats sampleMonitor)))
  = mkStatistics 0 0.
Proof.
  split; [ reflexivity | ].
  destruct (C8_fresh_monitor_zero_snapshot
              noJitter noJitter noJitter sampleConfig sampleMonitor eq_refl)
    as (H0 & _ & Hcopy).
  split; [ exact H0 | ].
  exact (proj2 (Hcopy [AssignClient 7; AssignServer 9])).
Defined.

(** C9.  When [Run] handles a report tick, the Reporter is invoked with the
    snapshot that [GetStats] gives in that state, and, whether or not the
    Reporter returns an error, [Run] is still running, nothing but the log of
    effects has changed, and the next report tick invokes the Reporter
    again, with the snapshot of that moment. *)
Theorem C9_report_tick (s : State) (t : Time) (o : Oracle)
    (Hrun : run s = Running) :
  exists s1,
    step s (RunTick reportingKey t o) = Some s1 /\
    effects s1
      = (if reportFails o then [EWarn "failed to report latency stats"] else [])
        ++ EReport (GetStats (mon s)) :: effects s /\
    run s1 = Running /\
    mon s1 = mon s /\
    ctxDone s1 = ctxDone s /\
    (forall l, pingC l s1 = pingC l s /\ loopOf l s1 = loopOf l s) /\
    (forall t' o',
     exists s2,
       step s1 (RunTick reportingKey t' o') = Some s2 /\
       run s2 = Running /\
       effects s2
         = (if reportFails o' then [EWarn "failed to report latency stats"] else [])
           ++ EReport (GetStats (mon s1)) :: effects s1).
Proof.
  destruct s as [m d r cc sc cl sl tr]; cbn in Hrun; subst r.
  unfold step; cbn [run].
  change (String.eqb reportingKey pingKey) with false.
  change (String.eqb reportingKey reportingKey) with true.
  cbv iota.
  destruct (reportFails o); eexists; (split; [ reflexivity | ]); cbn;
    (repeat split; try (destruct l; reflexivity));
    intros t' o'; change (String.eqb reportingKey pingKey) with false;
    change (String.eqb reportingKey reportingKey) with true; cbv iota;
    destruct (reportFails o'); eexists; repeat split.
Qed.

(** A running Monitor whose client leg has measured 25 ms. *)
Definition measured : State :=
  mkState (Store ClientLeg 25 sampleMonitor) false Running [] []
          AtSelect AtSelect
          [EStore ClientLeg 25; EPingReturned ClientLeg; EPing ClientLeg].

Lemma C9_witness :
  run measured = Running /\
  exists s1,
    step measured (RunTick reportingKey 40000000 (mkOracle false false true)) = Some s1 /\
    effects s1
      = [EWarn "failed to report latency stats"; EReport (mkStatistics 25 0)]
        ++ effects measured /\
    run s1 = Running.
Proof.
  split; [ reflexivity | ].
  destruct (C9_report_tick measured 40000000 (mkOracle false false true) eq_refl)
    as (s1 & Hstep & Heff & Hr & _).
  exists s1. split; [ exact Hstep | ]. split; [ exact Heff | exact Hr ].
Defined.

(* ------------------------------------------------------------------ *)
(** ** The websocket pinger *)

Definition isPongOf (tok : string) (e : WSEvent) : bool :=
  match e with
  | WSPong payload => String.eqb payload tok
  | _ => false
  end.

(** Once a call has returned, nothing makes it return again. *)
Lemma ws_finished_step (s s' : WSState) (e : WSEvent) (r : option PingError) :
  call s = Finished r -> ws_step s e = Some s' ->
  call s' = Finished r /\ returns s' = returns s.
Proof.
  intros Hc H. destruct s as [pc ck pv d c w rs]; cbn in Hc; subst c.
  destruct e; cbn in H; try discriminate H; injection H as <-; split; reflexivity.
Qed.

Lemma ws_finished_exec (s : WSState) (evs : list WSEvent) (s' : WSState)
    (r : option PingError) :
  call s = Finished r -> ws_exec s evs = Some s' ->
  call s' = Finished r /\ returns s' = returns s.
Proof.
  revert s. induction evs as [ | e evs IH ]; intros s Hc H; cbn in H.
  - injection H as <-. split; [ exact Hc | reflexivity ].
  - destruct (ws_step s e) as [s1 | ] eqn:Hstep; [ | discriminate H ].
    destruct (ws_finished_step s s1 e r Hc Hstep) as [Hc1 Hr1].
    destruct (IH s1 Hc1 H) as [Hc' Hr']. split; [ exact Hc' | congruence ].
Qed.

(** One step of a waiting call: it keeps waiting for the same token, or it
    returns success on its own token, or it returns the cancellation error
    on a canceled context. *)
Lemma ws_waiting_step (s s' : WSState) (e : WSEvent) (tok : string) :
  call s = Waiting tok -> ws_step s e = Some s' ->
  (call s' = Waiting tok /\ returns s' = returns s /\
   (forall p, In p (pongC s') -> In p (pongC s) \/ e = WSPong p))
  \/ (e = WSSelPong /\ (exists rest, pongC s = tok :: rest) /\
      call s' = Finished None /\ returns s' = None :: returns s)
  \/ (e = WSSelDone /\ wsCtxDone s = true /\
      call s' = Finished (Some ErrCtx) /\ returns s' = Some ErrCtx :: returns s).
Proof.
  intros Hc H. destruct s as [pc ck pv d c w rs]; cbn in Hc; subst c.
  destruct e; cbn in H.
  - injection H as <-. left; cbn; auto.
  - injection H as <-. left; cbn. repeat split.
    intros p. unfold installedHandler, pongCap.
    destruct pc as [ | x pc ]; cbn; destruct pv; cbn; intuition (subst; auto).
  - discriminate H.
  - destruct pc as [ | pong rest ]; [ discriminate H | ].
    destruct (String.eqb_spec pong tok) as [-> | Hne]; injection H as <-.
    + right; left; cbn; eauto.
    + left; cbn; auto.
  - destruct d; [ | discriminate H ]. injection H as <-.
    right; right; cbn; auto.
Qed.

(** Without a pong that carries its token, a waiting call keeps waiting or
    returns the cancellation error. *)
Lemma ws_without_token (s : WSState) (evs : list WSEvent) (s' : WSState)
    (tok : string) :
  call s = Waiting tok -> ~ In tok (pongC s) ->
  existsb (isPongOf tok) evs = false ->
  ws_exec s evs = Some s' ->
  call s' = Waiting tok \/ call s' = Finished (Some ErrCtx).
Proof.
  revert s. induction evs as [ | e evs IH ]; intros s Hc Hno Hev H; cbn in H.
  - injection H as <-. left; exact Hc.
  - destruct (ws_step s e) as [s1 | ] eqn:Hstep; [ | discriminate H ].
    cbn in Hev. apply orb_false_iff in Hev. destruct Hev as [He Hev].
    destruct (ws_waiting_step s s1 e tok Hc Hstep)
      as [(Hc1 & _ & Hin) | [(_ & (rest & Hhead) & _) | (_ & _ & Hc1 & _)]].
    + apply (IH s1 Hc1); [ | exact Hev | exact H ].
      intros Hin1. destruct (Hin tok Hin1) as [Hx | ->]; [ exact (Hno Hx) | ].
      cbn in He. rewrite String.eqb_refl in He. discriminate He.
    + exfalso. apply Hno. rewrite Hhead. left; reflexivity.
    + right. exact (proj1 (ws_finished_exec s1 evs s' _ Hc1 H)).
Qed.

(** A pinger on a socket without an earlier pong handler. *)
Definition ws0 : WSState := mkWSState [] RealClock None false NotCalled [] [].




(** A call that waits for "token" on a canceled context, a pong of another
    probe being in the channel. *)
Definition ws_waiting : WSState :=
  mkWSState ["other"%string] RealClock None true (Waiting "token")
            [(9, "token"%string, 2000000000)] [].



(* ================================================================== *)
(** * Further properties of the run loop *)

(** The full case analysis of one step of the Monitor: the state is opened,
    the event and every choice inside the step are split, and the equation
    of the reached state is used. *)
Ltac step_cases H :=
  match type of H with
  | step ?s ?e = Some _ =>
      let m := fresh "m" in let d := fresh "d" in let r := fresh "r" in
      let cc := fresh "cc" in let sc := fresh "sc" in
      let cl := fresh "cl" in let sl := fresh "sl" in let tr := fresh "tr" in
      let key := fresh "key" in let t := fresh "t" in let o := fresh "o" in
      let l := fresh "l" in let pr := fresh "pr" in
      let c1 := fresh "c1" in let r1 := fresh "r1" in
      let c2 := fresh "c2" in let r2 := fresh "r2" in
      let E1 := fresh "E1" in let E2 := fresh "E2" in
      let Ek := fresh "Ek" in let Er := fresh "Er" in
      destruct s as [m d r cc sc cl sl tr];
      destruct e as [ | | key t o | | l | l | l pr ]; cbn in H;
      [ injection H as <-
      | split_step H
      | destruct r; try discriminate H;
        destruct (String.eqb key pingKey) eqn:Ek;
        [ destruct (trySend cc t d (pickDoneClient o)) as [c1 r1] eqn:E1;
          destruct (trySend sc t d (pickDoneServer o)) as [c2 r2] eqn:E2;
          destruct r1; cbn in H; try rewrite E2 in H; cbn in H;
          destruct r2; injection H as <-
        | destruct (String.eqb key reportingKey) eqn:Er;
          [ destruct (reportFails o) | ]; injection H as <- ]
      | split_step H
      | destruct l; cbn in H; split_step H
      | destruct l; cbn in H; split_step H
      | destruct l; cbn in H; split_step H ]
  end.

(** Invariants are carried along an execution step by step. *)
Lemma exec_invariant (P : State -> Prop) :
  (forall s e s', P s -> step s e = Some s' -> P s') ->
  forall evs s s', P s -> exec s evs = Some s' -> P s'.
Proof.
  intros Hstep evs. induction evs as [ | e evs IH ]; intros s s' Hs H; cbn in H.
  - injection H as <-. exact Hs.
  - destruct (step s e) as [s1 | ] eqn:E; [ | discriminate H ].
    exact (IH s1 s' (Hstep s e s1 Hs E) H).
Qed.

Definition isReturn (e : Effect) : bool :=
  match e with EReturn => true | _ => false end.

Definition isTickerStop (e : Effect) : bool :=
  match e with ETickerStop => true | _ => false end.

Definition isReport (e : Effect) : bool :=
  match e with EReport _ => true | _ => false end.

(** How many effects of a kind a log holds. *)
Definition countEff (p : Effect -> bool) (tr : list Effect) : nat :=
  List.length (filter p tr).

Lemma countEff_cons (p : Effect -> bool) (e : Effect) (tr : list Effect) :
  countEff p (e :: tr) = ((if p e then 1 else 0) + countEff p tr)%nat.
Proof. unfold countEff; cbn. destruct (p e); reflexivity. Qed.

(** [Run] has returned only if the context was canceled. *)
Definition returned_canceled (s : State) : Prop :=
  run s = Returned -> ctxDone s = true.

Lemma returned_canceled_step (s : State) (e : Event) (s' : State) :
  returned_canceled s -> step s e = Some s' -> returned_canceled s'.
Proof.
  unfold returned_canceled. intros Hs H.
  step_cases H; cbn in *; intros Hr; try discriminate Hr; auto;
    repeat match goal with
           | E : trySend ?c ?t ?d ?p = (_, SawDone) |- _ =>
               destruct (trySend_cases c t d p)
                 as [[Hx _] | [[_ Hx] | [Hx _]]];
               [ rewrite Hx in E; discriminate E
               | exact Hx
               | rewrite Hx in E; discriminate E ]
           end.
Qed.

Lemma returned_stays_step (s : State) (e : Event) (s' : State) :
  run s = Returned -> step s e = Some s' -> run s' = Returned.
Proof.
  intros Hr H. step_cases H; cbn in *; try discriminate Hr; auto.
Qed.

(** [Run] handles every tick it is offered. *)
Lemma tick_enabled (s : State) (key : string) (t : Time) (o : Oracle) :
  run s = Running -> exists s', step s (RunTick key t o) = Some s'.
Proof.
  intros Hrun. unfold step. rewrite Hrun.
  destruct (String.eqb key pingKey).
  - destruct (trySend (clientC s) t (ctxDone s) (pickDoneClient o)) as [c1 r1].
    cbv zeta.
    destruct (trySend (serverC (set_pingC ClientLeg c1 s)) t
                      (ctxDone (set_pingC ClientLeg c1 s)) (pickDoneServer o))
      as [c2 r2].
    destruct r1, r2; eexists; reflexivity.
  - destruct (String.eqb key reportingKey); eexists; reflexivity.
Qed.

Lemma trySend_not_canceled (c c' : list Time) (t : Time) (p : bool) :
  trySend c t false p <> (c', SawDone).
Proof.
  intros E.
  destruct (trySend_cases c t false p) as [[Hx _] | [[_ Hx] | [Hx _]]];
    try discriminate Hx; rewrite Hx in E; discriminate E.
Qed.

Lemma tick_keeps_running (s : State) (key : string) (t : Time) (o : Oracle)
    (s' : State) :
  run s = Running -> ctxDone s = false ->
  step s (RunTick key t o) = Some s' -> run s' = Running.
Proof.
  intros Hrun Hd H.
  destruct s as [m d r cc sc cl sl tr]; cbn in Hrun, Hd; subst r d.
  cbn in H.
  destruct (String.eqb key pingKey).
  - destruct (trySend cc t false (pickDoneClient o)) as [c1 r1] eqn:E1.
    destruct (trySend sc t false (pickDoneServer o)) as [c2 r2] eqn:E2.
    destruct r1; cbn in H; try rewrite E2 in H; cbn in H;
      try (exfalso; exact (trySend_not_canceled _ _ _ _ E1));
      destruct r2; injection H as <-; try reflexivity;
      exfalso; exact (trySend_not_canceled _ _ _ _ E2).
  - destruct (String.eqb key reportingKey);
      [ destruct (reportFails o) | ]; injection H as <-; reflexivity.
Qed.

(** X1.  [Run] returns only on cancellation: in every state of every
    execution in which [Run] has returned, the context has been canceled;
    while the context is not canceled, [Run] handles every tick and keeps
    running.  Once [Run] has returned, it stays returned whatever happens
    next. *)
Theorem X1_Run_returns_only_on_cancel (m : Monitor) (evs : list Event) (s : State)
    (Hreach : exec (init m) evs = Some s) :
  (run s = Returned -> ctxDone s = true) /\
  (run s = Running -> ctxDone s = false ->
   forall key t o,
   exists s', step s (RunTick key t o) = Some s' /\ run s' = Running) /\
  (run s = Returned ->
   forall evs' s', exec s evs' = Some s' -> run s' = Returned).
Proof.
  split; [ | split ].
  - apply (exec_invariant returned_canceled returned_canceled_step evs (init m) s);
      [ intros Hr; discriminate Hr | exact Hreach ].
  - intros Hrun Hd key t o.
    destruct (tick_enabled s key t o Hrun) as [s' H].
    exists s'. split; [ exact H | ].
    exact (tick_keeps_running s key t o s' Hrun Hd H).
  - intros Hr evs' s' H.
    apply (exec_invariant (fun x => run x = Returned)) with (evs := evs') (s := s);
      [ | exact Hr | exact H ].
    intros x e x' Hx Hstep. exact (returned_stays_step x e x' Hx Hstep).
Qed.

(** A ping tick, a cancellation and the return of [Run]. *)
Definition canceled_run : list Event :=
  [ RunStart; RunTick pingKey 0 calm; Cancel; RunDone ].

Lemma X1_witness :
  exists s,
    exec (init sampleMonitor) canceled_run = Some s /\
    run s = Returned /\ ctxDone s = true.
Proof.
  eexists. split; [ vm_compute; reflexivity | ].
  split; [ reflexivity | ].
  apply (X1_Run_returns_only_on_cancel sampleMonitor canceled_run _ eq_refl).
  reflexivity.
Defined.

(** What the log of effects tells about the return of [Run]: before the
    return there is neither a return nor a stop of the ticker in the log;
    after it there is exactly one of each, and nothing that came after the
    return is a report or a stop of the ticker. *)
Definition quiet (e : Effect) : bool := negb (isReport e || isTickerStop e).

Definition return_logged (s : State) : Prop :=
  match run s with
  | Returned =>
      countEff isReturn (effects s) = 1%nat /\
      countEff isTickerStop (effects s) = 1%nat /\
      forallb quiet (afterReturn (effects s)) = true
  | _ =>
      countEff isReturn (effects s) = 0%nat /\
      countEff isTickerStop (effects s) = 0%nat
  end.

Lemma return_logged_step (s : State) (e : Event) (s' : State) :
  return_logged s -> step s e = Some s' -> return_logged s'.
Proof.
  unfold return_logged. intros Hs H.
  step_cases H; cbn [run effects doReturn emit set_run set_loop set_pingC set_mon
                     cancel mon ctxDone clientC serverC clientLoop serverLoop] in *;
    rewrite ?countEff_cons; cbn [isReturn isTickerStop afterReturn forallb quiet
                                 isReport orb negb andb Nat.add];
    try exact Hs;
    try (destruct Hs as (H1 & H2); repeat split; assumption);
    try (destruct Hs as (H1 & H2 & H3); repeat split; assumption);
    try (destruct r; exact Hs).
  all: destruct Hs as (H1 & H2); rewrite H1, H2; repeat split.
Qed.

Lemma forallb_quiet_report (tr : list Effect) (st : Statistics) :
  forallb quiet tr = true -> ~ In (EReport st) tr /\ ~ In ETickerStop tr.
Proof.
  intros H. rewrite forallb_forall in H.
  split; intros Hin; specialize (H _ Hin); discriminate H.
Qed.

(** X2.  On every path by which [Run] returns, the deferred
    [m.ticker.Stop()] has run exactly once, and after the return the
    Reporter is never invoked and the ticker is not stopped again; as long
    as [Run] has not returned, the ticker has not been stopped. *)
Theorem X2_ticker_stopped_once_no_report_after_return
    (m : Monitor) (evs : list Event) (s : State)
    (Hreach : exec (init m) evs = Some s) :
  (run s = Returned ->
   countEff isTickerStop (effects s) = 1%nat /\
   countEff isReturn (effects s) = 1%nat /\
   (forall st, ~ In (EReport st) (afterReturn (effects s))) /\
   ~ In ETickerStop (afterReturn (effects s))) /\
  (run s <> Returned ->
   countEff isTickerStop (effects s) = 0%nat /\
   countEff isReturn (effects s) = 0%nat).
Proof.
  assert (Hinv : return_logged s).
  { apply (exec_invariant return_logged return_logged_step evs (init m) s);
      [ cbn; split; reflexivity | exact Hreach ]. }
  unfold return_logged in Hinv. split.
  - intros Hr. rewrite Hr in Hinv. destruct Hinv as (H1 & H2 & H3).
    split; [ exact H2 | ]. split; [ exact H1 | ].
    split; [ intros st; exact (proj1 (forallb_quiet_report _ st H3)) | ].
    exact (proj2 (forallb_quiet_report _ (mkStatistics 0 0) H3)).
  - intros Hr. destruct (run s); try contradiction;
      destruct Hinv as (H1 & H2); split; assumption.
Qed.

Lemma X2_witness :
  exists s,
    exec (init sampleMonitor) canceled_run = Some s /\
    countEff isTickerStop (effects s) = 1%nat /\
    countEff isReturn (effects s) = 1%nat.
Proof.
  eexists. split; [ vm_compute; reflexivity | ].
  destruct (X2_ticker_stopped_once_no_report_after_return
              sampleMonitor canceled_run _ eq_refl) as [H _].
  destruct (H eq_refl) as (H1 & H2 & _).
  split; [ exact H1 | exact H2 ].
Defined.

Ltac state_simpl :=
  cbn [run effects doReturn emit set_run set_loop set_pingC set_mon cancel mon
       ctxDone clientC serverC clientLoop serverLoop pingC loopOf Store latencyOf
       clientLatency serverLatency] in *.

(** After the return of [Run], a leg's pings and its queued signals together
    are at most one. *)
Definition late_pings (s : State) : Prop :=
  forall l,
    run s = Returned ->
    (countEff (isPing l) (afterReturn (effects s)) + List.length (pingC l s) <= 1)%nat.

Lemma late_pings_step (s : State) (e : Event) (s' : State) :
  serialized s -> late_pings s -> step s e = Some s' -> late_pings s'.
Proof.
  intros Hser Hb H l Hr.
  pose proof (serialized_step s s' e Hser H l) as (Hlen & _).
  specialize (Hb l). unfold chanCap in Hlen.
  step_cases H; state_simpl; try discriminate Hr;
    cbn [afterReturn]; rewrite ?countEff_cons;
    try (specialize (Hb Hr));
    destruct l; state_simpl; cbn [isPing afterReturn List.length] in *;
    unfold countEff in *; cbn [filter List.length] in *;
    lia.
Qed.

Lemma serialized_late_pings (m : Monitor) (evs : list Event) (s : State) :
  exec (init m) evs = Some s -> serialized s /\ late_pings s.
Proof.
  apply (exec_invariant (fun x => serialized x /\ late_pings x)).
  - intros x e x' [Hs Hb] H.
    split; [ exact (serialized_step x x' e Hs H)
           | exact (late_pings_step x e x' Hs Hb H) ].
  - split; [ apply serialized_init | intros l Hr; discriminate Hr ].
Qed.

(** X3.  Once [Run] has returned no signal is sent any more, so each
    measurement task invokes its Pinger at most once after the return: the
    pings of a leg invoked since the return and the signals still queued
    for it are together at most one. *)
Theorem X3_at_most_one_ping_after_return
    (m : Monitor) (evs : list Event) (s : State) (l : Leg)
    (Hreach : exec (init m) evs = Some s)
    (Hret : run s = Returned) :
  (countEff (isPing l) (afterReturn (effects s)) + List.length (pingC l s) <= 1)%nat.
Proof.
  exact (proj2 (serialized_late_pings m evs s Hreach) l Hret).
Qed.

(** The run of C1: after the return the client task takes the signal that
    was queued. *)
Definition late_ping_run : list Event :=
  canceled_run ++ [ LoopDone ClientLeg; LoopRecv ClientLeg ].

Lemma X3_witness :
  exists s,
    exec (init sampleMonitor) late_ping_run = Some s /\
    run s = Returned /\
    (countEff (isPing ClientLeg) (afterReturn (effects s))
     + List.length (pingC ClientLeg s) <= 1)%nat.
Proof.
  eexists. split; [ vm_compute; reflexivity | ].
  split; [ reflexivity | ].
  exact (X3_at_most_one_ping_after_return
           sampleMonitor late_ping_run _ ClientLeg eq_refl eq_refl).
Defined.

(** The ticks among the events of an execution. *)
Definition isPingTick (e : Event) : bool :=
  match e with RunTick key _ _ => String.eqb key pingKey | _ => false end.

Definition isReportTick (e : Event) : bool :=
  match e with RunTick key _ _ => String.eqb key reportingKey | _ => false end.

Definition countEv (p : Event -> bool) (evs : list Event) : nat :=
  List.length (filter p evs).

Lemma countEv_cons (p : Event -> bool) (e : Event) (evs : list Event) :
  countEv p (e :: evs) = ((if p e then 1 else 0) + countEv p evs)%nat.
Proof. unfold countEv; cbn. destruct (p e); reflexivity. Qed.

Lemma trySend_chan (c c' : list Time) (t : Time) (done pickDone : bool)
    (r : SendOutcome) :
  trySend c t done pickDone = (c', r) ->
  (r = Sent /\ c = [] /\ c' = [t]) \/ (r <> Sent /\ c' = c).
Proof.
  intros E.
  destruct (trySend_cases c t done pickDone)
    as [[Hx Hc] | [[Hx _] | [Hx _]]]; rewrite Hx in E; injection E as <- <-.
  - left. subst c. repeat split.
  - right. split; [ discriminate | reflexivity ].
  - right. split; [ discriminate | reflexivity ].
Qed.

(** Every fact [trySend_chan] gives about the sends of the step at hand. *)
Ltac sends :=
  repeat match goal with
         | E : trySend _ _ _ _ = (_, _) |- _ =>
             let Hx := fresh "Hsend" in
             pose proof (trySend_chan _ _ _ _ _ _ E) as Hx; clear E;
             destruct Hx as [(? & ? & ?) | (? & ?)];
             try discriminate; try congruence; subst
         end.

Lemma key_is_ping (key : string) :
  String.eqb key pingKey = true -> String.eqb key reportingKey = false.
Proof. intros H. apply String.eqb_eq in H. subst key. reflexivity. Qed.

Lemma report_count_step (s : State) (e : Event) (s' : State) :
  step s e = Some s' ->
  countEff isReport (effects s')
  = (countEff isReport (effects s) + (if isReportTick e then 1 else 0))%nat.
Proof.
  intros H. step_cases H; state_simpl; cbn [isReportTick];
    rewrite ?countEff_cons; cbn [isReport];
    try rewrite (key_is_ping _ Ek); try rewrite Er; lia.
Qed.

(** X4.  The Reporter is invoked exactly once for each report tick that
    [Run] handles, and never otherwise: the number of reports in the log is
    the number of report ticks among the events. *)
Theorem X4_one_report_per_report_tick (m : Monitor) (evs : list Event) (s : State)
    (Hreach : exec (init m) evs = Some s) :
  countEff isReport (effects s) = countEv isReportTick evs.
Proof.
  assert (Hgen : forall evs x x',
            exec x evs = Some x' ->
            countEff isReport (effects x')
            = (countEff isReport (effects x) + countEv isReportTick evs)%nat).
  { clear. intros evs. induction evs as [ | e evs IH ]; intros x x' H; cbn in H.
    - injection H as <-. cbn. lia.
    - destruct (step x e) as [x1 | ] eqn:E; [ | discriminate H ].
      rewrite (IH x1 x' H), (report_count_step x e x1 E), countEv_cons. lia. }
  rewrite (Hgen evs (init m) s Hreach). reflexivity.
Qed.

(** Two report ticks, the first of which fails, and a ping tick. *)
Definition two_reports : list Event :=
  [ RunStart; RunTick reportingKey 1 (mkOracle false false true);
    RunTick pingKey 2 calm; RunTick reportingKey 3 calm ].

Lemma X4_witness :
  exists s,
    exec (init sampleMonitor) two_reports = Some s /\
    countEff isReport (effects s) = 2%nat.
Proof.
  eexists. split; [ vm_compute; reflexivity | ].
  exact (X4_one_report_per_report_tick sampleMonitor two_reports _ eq_refl).
Defined.

Lemma ping_count_step (s : State) (e : Event) (s' : State) (l : Leg) :
  step s e = Some s' ->
  (countEff (isPing l) (effects s') + List.length (pingC l s')
   <= countEff (isPing l) (effects s) + List.length (pingC l s)
      + (if isPingTick e then 1 else 0))%nat.
Proof.
  intros H. step_cases H; sends; destruct l; state_simpl; cbn [isPingTick];
    rewrite ?countEff_cons; cbn [isPing List.length];
    try rewrite Ek; try lia.
Qed.

(** X5.  A leg is pinged at most once per ping tick: in every execution the
    pings invoked for a leg, together with the signals still queued for it,
    never outnumber the ping ticks that [Run] has handled. *)
Theorem X5_pings_bounded_by_ticks (m : Monitor) (evs : list Event) (s : State)
    (l : Leg)
    (Hreach : exec (init m) evs = Some s) :
  (countEff (isPing l) (effects s) + List.length (pingC l s)
   <= countEv isPingTick evs)%nat.
Proof.
  assert (Hgen : forall evs x x',
            exec x evs = Some x' ->
            (countEff (isPing l) (effects x') + List.length (pingC l x')
             <= countEff (isPing l) (effects x) + List.length (pingC l x)
                + countEv isPingTick evs)%nat).
  { clear. intros evs. induction evs as [ | e evs IH ]; intros x x' H; cbn in H.
    - injection H as <-. cbn. lia.
    - destruct (step x e) as [x1 | ] eqn:E; [ | discriminate H ].
      pose proof (IH x1 x' H). pose proof (ping_count_step x e x1 l E).
      rewrite countEv_cons. lia. }
  pose proof (Hgen evs (init m) s Hreach) as H.
  destruct l; cbn in H; exact H.
Qed.

Lemma X5_witness :
  exists s,
    exec (init sampleMonitor) second_tick_while_busy = Some s /\
    (countEff (isPing ClientLeg) (effects s) + List.length (pingC ClientLeg s)
     <= 2)%nat.
Proof.
  eexists. split; [ vm_compute; reflexivity | ].
  exact (X5_pings_bounded_by_ticks
           sampleMonitor second_tick_while_busy _ ClientLeg eq_refl).
Defined.

(** The time stamp [t] is queued for leg [l] or is that of the ping the leg
    is busy with. *)
Definition stamped (l : Leg) (t : Time) (s : State) : Prop :=
  In t (pingC l s) \/ loopOf l s = InPing t.

Lemma step_stamped (s : State) (e : Event) (s' : State) (l : Leg) (t : Time) :
  step s e = Some s' -> stamped l t s' ->
  stamped l t s
  \/ exists key o, e = RunTick key t o /\ String.eqb key pingKey = true.
Proof.
  unfold stamped. intros H Hst.
  step_cases H; sends; destruct l; state_simpl;
    try (left; exact Hst);
    try (destruct Hst as [[Hx | []] | Hx];
         [ subst; right; eauto | discriminate Hx || (left; right; exact Hx) ]);
    try (destruct Hst as [Hx | Hx]; [ destruct Hx | discriminate Hx ]);
    try (destruct Hst as [Hx | Hx];
         [ left; left; try (right; exact Hx); exact Hx
         | try discriminate Hx; try (left; right; exact Hx);
           injection Hx as <-; left; left; left; reflexivity ]).
Qed.

Lemma step_stored (s : State) (e : Event) (s' : State) (l : Leg) (v : Z) :
  step s e = Some s' -> In (EStore l v) (effects s') ->
  In (EStore l v) (effects s)
  \/ exists t now,
       e = PingReturn l (PingOk now) /\ loopOf l s = InPing t /\
       v = Milliseconds (Sub now t).
Proof.
  intros H Hin.
  step_cases H; state_simpl; cbn [In] in Hin;
    repeat match goal with
           | Hx : _ \/ _ |- _ => destruct Hx as [Hx | Hx]; try discriminate Hx
           end;
    try (left; assumption);
    injection Hin as <- <-; right; do 2 eexists; repeat split.
Qed.

(** X6.  Every measurement the Monitor has stored for a leg is the whole
    milliseconds between the time stamp of a ping tick that [Run] handled
    and the clock reading at a later successful return of that leg's
    Ping. *)
Theorem X6_stored_value_provenance
    (m : Monitor) (evs : list Event) (s : State) (l : Leg) (v : Z)
    (Hreach : exec (init m) evs = Some s)
    (Hstored : In (EStore l v) (effects s)) :
  exists key o t now pre mid post,
    String.eqb key pingKey = true /\
    evs = pre ++ RunTick key t o :: mid ++ PingReturn l (PingOk now) :: post /\
    v = Milliseconds (Sub now t).
Proof.
  assert (Hgen : forall evs x x',
            exec x evs = Some x' -> In (EStore l v) (effects x') ->
            In (EStore l v) (effects x)
            \/ (exists t now pre post,
                  stamped l t x /\
                  evs = pre ++ PingReturn l (PingOk now) :: post /\
                  v = Milliseconds (Sub now t))
            \/ (exists key o t now pre mid post,
                  String.eqb key pingKey = true /\
                  evs = pre ++ RunTick key t o :: mid
                            ++ PingReturn l (PingOk now) :: post /\
                  v = Milliseconds (Sub now t))).
  { clear. intros evs. induction evs as [ | e evs IH ]; intros x x' H Hin; cbn in H.
    - injection H as <-. left; exact Hin.
    - destruct (step x e) as [x1 | ] eqn:E; [ | discriminate H ].
      destruct (IH x1 x' H Hin)
        as [H1 | [(t & now & pre & post & Hst & -> & ->)
                 | (key & o & t & now & pre & mid & post & Hk & -> & ->)]].
      + destruct (step_stored x e x1 l v E H1) as [H0 | (t & now & -> & Hl & ->)].
        * left; exact H0.
        * right; left. exists t, now, [], evs.
          split; [ right; exact Hl | split; reflexivity ].
      + destruct (step_stamped x e x1 l t E Hst) as [H0 | (key & o & -> & Hk)].
        * right; left. exists t, now, (e :: pre), post.
          split; [ exact H0 | split; reflexivity ].
        * right; right. exists key, o, t, now, [], pre, post.
          split; [ exact Hk | split; reflexivity ].
      + right; right. exists key, o, t, now, (e :: pre), mid, post.
        split; [ exact Hk | split; reflexivity ]. }
  destruct (Hgen evs (init m) s Hreach Hstored)
    as [H0 | [(t & now & pre & post & [H0 | H0] & _) | H3]].
  - destruct H0.
  - destruct l; destruct H0.
  - destruct l; discriminate H0.
  - exact H3.
Qed.

(** A tick stamped 1 ms, the client task busy until 31 ms. *)
Definition measured_run : list Event :=
  [ RunStart; RunTick pingKey 1000000 calm; LoopRecv ClientLeg;
    PingReturn ClientLeg (PingOk 31000000) ].

Lemma X6_witness :
  exists s,
    exec (init sampleMonitor) measured_run = Some s /\
    In (EStore ClientLeg 30) (effects s) /\
    exists key o t now pre mid post,
      String.eqb key pingKey = true /\
      measured_run
      = pre ++ RunTick key t o :: mid ++ PingReturn ClientLeg (PingOk now) :: post /\
      30 = Milliseconds (Sub now t).
Proof.
  eexists. split; [ vm_compute; reflexivity | ].
  split; [ left; reflexivity | ].
  apply (X6_stored_value_provenance sampleMonitor measured_run _ ClientLeg 30 eq_refl).
  left; reflexivity.
Defined.

(** The events of the measurement task of leg [l]. *)
Definition ofLeg (l : Leg) (e : Event) : bool :=
  match e with
  | LoopRecv l' | LoopDone l' | PingReturn l' _ => sameLeg l l'
  | _ => false
  end.

(** What a measurement task of one leg cannot touch. *)
Definition sameElsewhere (l : Leg) (s s' : State) : Prop :=
  pingC (otherLeg l) s' = pingC (otherLeg l) s /\
  loopOf (otherLeg l) s' = loopOf (otherLeg l) s /\
  latencyOf (otherLeg l) (mon s') = latencyOf (otherLeg l) (mon s) /\
  run s' = run s /\
  ctxDone s' = ctxDone s.

Lemma ofLeg_step (l : Leg) (s : State) (e : Event) (s' : State) :
  ofLeg l e = true -> step s e = Some s' -> sameElsewhere l s s'.
Proof.
  unfold sameElsewhere. intros He H.
  step_cases H; try discriminate He; destruct l; try discriminate He;
    state_simpl; cbn [otherLeg]; repeat split.
Qed.

(** X7.  The two measurement tasks do not interfere: whatever one leg's
    task does (taking a signal, taking the cancellation, returning from a
    ping with or without error), the other leg's channel, the place of the
    other leg's task and the other leg's stored latency stay as they are,
    and so do the run loop and the context. *)
Theorem X7_legs_do_not_interfere
    (l : Leg) (s : State) (evs : list Event) (s' : State)
    (Hexec : exec s evs = Some s')
    (Hleg : forallb (ofLeg l) evs = true) :
  pingC (otherLeg l) s' = pingC (otherLeg l) s /\
  loopOf (otherLeg l) s' = loopOf (otherLeg l) s /\
  latencyOf (otherLeg l) (mon s') = latencyOf (otherLeg l) (mon s) /\
  run s' = run s /\
  ctxDone s' = ctxDone s.
Proof.
  change (sameElsewhere l s s').
  revert s Hexec Hleg. induction evs as [ | e evs IH ]; intros s H Hleg; cbn in H.
  - injection H as <-. repeat split.
  - destruct (step s e) as [s1 | ] eqn:E; [ | discriminate H ].
    cbn in Hleg. apply andb_true_iff in Hleg. destruct Hleg as [He Hleg].
    destruct (ofLeg_step l s e s1 He E) as (A1 & A2 & A3 & A4 & A5).
    destruct (IH s1 H Hleg) as (B1 & B2 & B3 & B4 & B5).
    unfold sameElsewhere. repeat split; congruence.
Qed.

(** Both legs have a signal queued; the client task pings with success. *)
Definition both_queued : State :=
  mkState sampleMonitor false Running [1000000] [1000000] AtSelect AtSelect [].

Lemma X7_witness :
  exists s',
    exec both_queued [ LoopRecv ClientLeg; PingReturn ClientLeg (PingOk 9000000) ]
      = Some s' /\
    clientLatency (mon s') = 8 /\
    pingC ServerLeg s' = [1000000] /\
    loopOf ServerLeg s' = AtSelect /\
    serverLatency (mon s') = 0.
Proof.
  eexists. split; [ vm_compute; reflexivity | ].
  split; [ reflexivity | ].
  destruct (X7_legs_do_not_interfere
              ClientLeg both_queued
              [ LoopRecv ClientLeg; PingReturn ClientLeg (PingOk 9000000) ]
              _ eq_refl eq_refl) as (H1 & H2 & H3 & _).
  split; [ exact H1 | ]. split; [ exact H2 | exact H3 ].
Defined.

(* ================================================================== *)
(** * Further properties of the configuration *)

Lemma CheckAndSetDefaults_cases (cfg : MonitorConfig) :
  (missingDependency cfg /\
   exists msg, CheckAndSetDefaults cfg = (cfg, Some (BadParameter msg)))
  \/ (~ missingDependency cfg /\ CheckAndSetDefaults cfg = (defaulted cfg, None)).
Proof.
  destruct (missingDependency_dec cfg) as [H | H].
  - left. split; [ exact H | exact (CheckAndSetDefaults_missing cfg H) ].
  - right. split; [ exact H | exact (CheckAndSetDefaults_present cfg H) ].
Qed.

Lemma CheckAndSetDefaults_complete (cfg cfg' : MonitorConfig) :
  CheckAndSetDefaults cfg = (cfg', None) ->
  ClientPinger cfg' = ClientPinger cfg /\ ClientPinger cfg' <> None /\
  ServerPinger cfg' = ServerPinger cfg /\ ServerPinger cfg' <> None /\
  Reporter_ cfg' = Reporter_ cfg /\ Reporter_ cfg' <> None /\
  Clock_ cfg' <> None /\
  0 < PingInterval cfg' /\ 0 < ReportInterval cfg' /\
  (0 < PingInterval cfg -> PingInterval cfg' = PingInterval cfg) /\
  (0 < ReportInterval cfg -> ReportInterval cfg' = ReportInterval cfg) /\
  (Clock_ cfg <> None -> Clock_ cfg' = Clock_ cfg).
Proof.
  intros Hok.
  destruct (CheckAndSetDefaults_cases cfg) as [[_ [msg H]] | [Hp H]];
    rewrite H in Hok; [ discriminate Hok | ].
  injection Hok as <-.
  unfold missingDependency in Hp. unfold defaulted; cbn.
  unfold Second, Millisecond.
  destruct (Z.leb_spec (PingInterval cfg) 0), (Z.leb_spec (ReportInterval cfg) 0);
    destruct (Clock_ cfg);
    repeat split; try tauto; try lia; try discriminate; congruence.
Qed.

(** X8.  A configuration that [CheckAndSetDefaults] accepts is complete
    afterwards: the three dependencies are the ones supplied and are
    present, a clock is present, and both intervals are strictly positive;
    an interval that was supplied positive and a clock that was supplied are
    kept as they were. *)
Theorem X8_checked_config_is_complete (cfg cfg' : MonitorConfig)
    (Hok : CheckAndSetDefaults cfg = (cfg', None)) :
  ClientPinger cfg' = ClientPinger cfg /\ ClientPinger cfg' <> None /\
  ServerPinger cfg' = ServerPinger cfg /\ ServerPinger cfg' <> None /\
  Reporter_ cfg' = Reporter_ cfg /\ Reporter_ cfg' <> None /\
  Clock_ cfg' <> None /\
  0 < PingInterval cfg' /\ 0 < ReportInterval cfg' /\
  (0 < PingInterval cfg -> PingInterval cfg' = PingInterval cfg) /\
  (0 < ReportInterval cfg -> ReportInterval cfg' = ReportInterval cfg) /\
  (Clock_ cfg <> None -> Clock_ cfg' = Clock_ cfg).
Proof.
  destruct (CheckAndSetDefaults_cases cfg) as [[_ [msg H]] | [Hp H]];
    rewrite H in Hok; [ discriminate Hok | ].
  injection Hok as <-.
  unfold missingDependency in Hp. unfold defaulted; cbn.
  unfold Second, Millisecond.
  destruct (Z.leb_spec (PingInterval cfg) 0), (Z.leb_spec (ReportInterval cfg) 0);
    destruct (Clock_ cfg);
    repeat split; try tauto; try lia; try discriminate; congruence.
Qed.

Lemma X8_witness :
  exists cfg',
    CheckAndSetDefaults cfg_negative_ping = (cfg', None) /\
    0 < PingInterval cfg' /\ 0 < ReportInterval cfg' /\ Clock_ cfg' <> None.
Proof.
  eexists. split; [ reflexivity | ].
  destruct (X8_checked_config_is_complete cfg_negative_ping _ eq_refl)
    as (_ & _ & _ & _ & _ & _ & Hc & Hp & Hr & _).
  split; [ exact Hp | ]. split; [ exact Hr | exact Hc ].
Defined.

(** X9.  [CheckAndSetDefaults] is idempotent: on the configuration it leaves
    behind it gives the same configuration and the same result, the error
    when it failed and success when it succeeded. *)
Theorem X9_CheckAndSetDefaults_idempotent (cfg : MonitorConfig) :
  CheckAndSetDefaults (fst (CheckAndSetDefaults cfg)) = CheckAndSetDefaults cfg.
Proof.
  destruct (CheckAndSetDefaults_cases cfg) as [[_ [msg H]] | [Hp H]].
  - rewrite H. cbn [fst]. exact H.
  - rewrite H. cbn [fst].
    rewrite CheckAndSetDefaults_present.
    + f_equal. unfold defaulted; cbn. unfold Second, Millisecond.
      destruct (Z.leb_spec (PingInterval cfg) 0), (Z.leb_spec (ReportInterval cfg) 0);
        cbn; repeat match goal with
                    | |- context [?x <=? 0] =>
                        destruct (Z.leb_spec x 0); try lia
                    end;
        destruct (Clock_ cfg); reflexivity.
    + unfold missingDependency in *. cbn. exact Hp.
Qed.

(** X10.  A Monitor that [NewMonitor] returns carries the collaborators of
    the configuration, all present, and a ticker over its clock with
    exactly two sub-intervals, the ping ticker and the reporting ticker in
    this order, both with a strictly positive period. *)
Theorem X10_NewMonitor_ticker
    (sj fj hj : Duration -> Duration) (cfg : MonitorConfig) (m : Monitor)
    (Hnew : NewMonitor sj fj hj cfg = Ret (Some m) None) :
  clientPinger m = ClientPinger cfg /\ clientPinger m <> None /\
  serverPinger m = ServerPinger cfg /\ serverPinger m <> None /\
  reporter m = Reporter_ cfg /\ reporter m <> None /\
  clock m <> None /\ mi_clock (ticker m) = clock m /\
  map Key (mi_subs (ticker m)) = [pingKey; reportingKey] /\
  Forall (fun sub => 0 < Duration_ sub) (mi_subs (ticker m)) /\
  map FirstDuration (mi_subs (ticker m))
  = [fj (500 * Millisecond); hj (1500 * Millisecond)].
Proof.
  unfold NewMonitor in Hnew.
  destruct (CheckAndSetDefaults cfg) as [cfg' [err | ]] eqn:Hcheck;
    [ discriminate Hnew | ].
  destruct (CheckAndSetDefaults_complete cfg cfg' Hcheck)
    as (H1 & H2 & H3 & H4 & H5 & H6 & H7 & H8 & H9 & _).
  cbn in Hnew. injection Hnew as <-. cbn.
  repeat split; try assumption.
  repeat constructor; assumption.
Qed.

Lemma X10_witness :
  NewMonitor noJitter noJitter noJitter sampleConfig = Ret (Some sampleMonitor) None /\
  map Key (mi_subs (ticker sampleMonitor)) = [pingKey; reportingKey] /\
  map Duration_ (mi_subs (ticker sampleMonitor)) = [8000000000; 10000000000].
Proof.
  split; [ reflexivity | ].
  destruct (X10_NewMonitor_ticker noJitter noJitter noJitter
              sampleConfig sampleMonitor eq_refl)
    as (_ & _ & _ & _ & _ & _ & _ & _ & Hk & _).
  split; [ exact Hk | reflexivity ].
Defined.

(* ================================================================== *)
(** * Further properties of the websocket pinger *)

(** The pong channel holds at most one payload and the handler captured by
    the closure is the one the socket had. *)
Definition pong_bounded (h : option PongHandler) (s : WSState) : Prop :=
  (List.length (pongC s) <= pongCap)%nat /\ prev s = h.

Lemma pong_bounded_step (h : option PongHandler) (s : WSState) (e : WSEvent)
    (s' : WSState) :
  pong_bounded h s -> ws_step s e = Some s' -> pong_bounded h s'.
Proof.
  unfold pong_bounded, pongCap. intros [Hlen Hprev] H.
  destruct s as [pc ck pv d c w rs]; cbn in Hlen, Hprev; subst pv.
  destruct e; cbn in H.
  - injection H as <-. cbn. auto.
  - injection H as <-. cbn. split; [ | reflexivity ].
    unfold installedHandler, pongCap.
    destruct pc as [ | x pc ]; cbn; destruct h; cbn; try lia.
    + destruct pc; cbn in *; lia.
    + destruct pc; cbn in *; lia.
  - destruct c; try discriminate H. destruct werr; injection H as <-; cbn; auto.
  - destruct c; try discriminate H. destruct pc as [ | pong rest ]; [ discriminate H | ].
    destruct (String.eqb pong payload); injection H as <-; cbn in *; split; auto; lia.
  - destruct c; try discriminate H. destruct d; [ | discriminate H ].
    injection H as <-. cbn. auto.
Qed.

Lemma pong_bounded_exec (h : option PongHandler) (evs : list WSEvent)
    (s s' : WSState) :
  pong_bounded h s -> ws_exec s evs = Some s' -> pong_bounded h s'.
Proof.
  revert s. induction evs as [ | e evs IH ]; intros s Hs H; cbn in H.
  - injection H as <-. exact Hs.
  - destruct (ws_step s e) as [s1 | ] eqn:E; [ | discriminate H ].
    exact (IH s1 (pong_bounded_step h s e s1 Hs E) H).
Qed.

(** X11.  For a pinger made by [NewWebsocketPinger], in every state of every
    execution: the pong channel holds at most one payload; the installed
    handler never blocks; it queues the payload of a pong when the channel
    is empty and drops it when the channel is occupied, keeping the older
    payload; it does not complete or disturb a call of [Ping] by itself;
    and it returns what the handler installed before returns on that
    payload, or [nil] when there was none. *)
Theorem X11_pong_handler_bounded_and_chained
    (clock : option Clock) (ws : WebSocket) (s0 : WSState)
    (evs : list WSEvent) (s : WSState)
    (Hnew : NewWebsocketPinger clock (Some ws) = (Some s0, None))
    (Hreach : ws_exec s0 evs = Some s) :
  (List.length (pongC s) <= 1)%nat /\
  forall payload,
  exists s',
    ws_step s (WSPong payload) = Some s' /\
    (pongC s = [] -> pongC s' = [payload]) /\
    (pongC s <> [] -> pongC s' = pongC s) /\
    call s' = call s /\ returns s' = returns s /\
    snd (installedHandler (prev s) (pongC s) payload)
    = match wsPongHandler ws with Some h => h payload | None => None end.
Proof.
  assert (Hinv : pong_bounded (wsPongHandler ws) s).
  { apply (pong_bounded_exec _ evs s0 s); [ | exact Hreach ].
    cbn in Hnew. injection Hnew as <-. split; cbn; [ unfold pongCap; lia | reflexivity ]. }
  destruct Hinv as [Hlen Hprev]. unfold pongCap in Hlen.
  split; [ exact Hlen | ].
  intros payload. eexists. split; [ reflexivity | ].
  cbn. rewrite Hprev. unfold installedHandler, pongCap.
  destruct (pongC s) as [ | x [ | y r ] ]; cbn in *; try lia;
    destruct (wsPongHandler ws); cbn; repeat split; congruence.
Qed.

Lemma X11_witness :
  exists s,
    ws_exec ws0 [ WSPong "first"; WSPong "second" ] = Some s /\
    pongC s = ["first"%string].
Proof.
  eexists. split; [ vm_compute; reflexivity | ].
  destruct (X11_pong_handler_bounded_and_chained
              None (mkWebSocket None) ws0 [ WSPong "first" ] _ eq_refl eq_refl)
    as [_ H].
  destruct (H "second"%string) as (s' & Hstep & _ & Hfull & _).
  injection Hstep as <-. reflexivity.
Defined.

(** X12.  A pong can be lost: when a call of [Ping] waits for its token
    while the channel still holds the payload of another probe, the pong
    that carries the token is dropped by the handler; the call then discards
    the other payload and keeps waiting on an empty channel, and unless
    another pong with the token arrives it can only end with the
    cancellation error. *)
Theorem X12_matching_pong_lost_when_channel_occupied
    (s : WSState) (tok stale : string)
    (Hwait : call s = Waiting tok)
    (Hfull : pongC s = [stale])
    (Hstale : stale <> tok) :
  exists s',
    ws_exec s [ WSPong tok; WSSelPong ] = Some s' /\
    call s' = Waiting tok /\ pongC s' = [] /\ returns s' = returns s /\
    (ws_step s' WSSelPong = None) /\
    (forall evs s'' r,
       existsb (isPongOf tok) evs = false ->
       ws_exec s' evs = Some s'' -> call s'' = Finished r -> r = Some ErrCtx).
Proof.
  destruct s as [pc ck pv d c w rs]; cbn in Hwait, Hfull; subst c pc.
  apply String.eqb_neq in Hstale.
  eexists. split.
  { cbn. unfold installedHandler, pongCap. cbn.
    destruct pv; cbn; rewrite Hstale; reflexivity. }
  cbn. repeat split.
  intros evs s'' r Hev Hexec Hfin.
  destruct (ws_without_token (mkWSState [] ck pv d (Waiting tok) w rs) evs s'' tok
              eq_refl (fun x => x) Hev Hexec) as [Hc | Hc];
    rewrite Hc in Hfin; [ discriminate Hfin | ].
  injection Hfin as <-. reflexivity.
Qed.

Lemma X12_witness :
  exists s',
    ws_exec ws_waiting [ WSPong "token"; WSSelPong ] = Some s' /\
    call s' = Waiting "token" /\ pongC s' = [].
Proof.
  destruct (X12_matching_pong_lost_when_channel_occupied
              ws_waiting "token" "other" eq_refl eq_refl)
    as (s' & H1 & H2 & H3 & _).
  - discriminate.
  - exists s'. split; [ exact H1 | ]. split; [ exact H2 | exact H3 ].
Defined.

(* ================================================================== *)
(** * Further properties of the threshold classification *)

Section ColourProperties.
Import LatencyDiagnostic.

(** How bad a colour is. *)
Definition severity (c : latencyColor) : Z :=
  match c with ok => 0 | warn => 1 | error => 2 end.

(** The worse of two colours. *)
Definition worst (a b : latencyColor) : latencyColor :=
  if severity a <? severity b then b else a.

Lemma latencyColors_legs (client server : Z) :
  LatencyDiagnostic.client (latencyColors client server) = colorForLatency client /\
  LatencyDiagnostic.server (latencyColors client server) = colorForLatency server.
Proof.
  unfold latencyColors.
  destruct (_ || _); [ split; reflexivity | ].
  destruct (_ && _); [ split; reflexivity | ].
  destruct (_ && _); split; reflexivity.
Qed.

Lemma severity_colorForLatency (l : Z) :
  severity (colorForLatency l)
  = if l >=? 400 then 2 else if l >=? 150 then 1 else 0.
Proof.
  unfold colorForLatency, errorThreshold, warnThreshold.
  destruct (l >=? 400); [ reflexivity | ]. destruct (l >=? 150); reflexivity.
Qed.

Lemma severity_total (client server : Z) :
  severity (total (latencyColors client server))
  = Z.max (severity (colorForLatency client)) (severity (colorForLatency server)).
Proof.
  rewrite !severity_colorForLatency.
  unfold latencyColors, errorThreshold, warnThreshold.
  destruct (Z.geb_spec client 400), (Z.geb_spec server 400),
           (Z.geb_spec client 150), (Z.geb_spec server 150),
           (Z.ltb_spec client 150), (Z.ltb_spec server 150);
    try lia; reflexivity.
Qed.

Lemma severity_inj (a b : latencyColor) : severity a = severity b -> a = b.
Proof. destruct a, b; cbn; intros H; try reflexivity; discriminate H. Qed.

(** X13.  [latencyColors] colours each leg by the leg's own latency alone,
    and the total is the worse of the two leg colours; so exchanging the two
    latencies exchanges the leg colours and keeps the total. *)
Theorem X13_total_is_worst_leg (client server : Z) :
  let r := latencyColors client server in
  LatencyDiagnostic.client r = colorForLatency client /\
  LatencyDiagnostic.server r = colorForLatency server /\
  total r = worst (LatencyDiagnostic.client r) (LatencyDiagnostic.server r) /\
  latencyColors server client
  = mkColors (LatencyDiagnostic.server r) (LatencyDiagnostic.client r) (total r).
Proof.
  intros r. subst r. destruct (latencyColors_legs client server) as [Hc Hs].
  assert (Ht : total (latencyColors client server)
               = worst (colorForLatency client) (colorForLatency server)).
  { apply severity_inj. rewrite severity_total. unfold worst.
    destruct (Z.ltb_spec (severity (colorForLatency client))
                         (severity (colorForLatency server))); lia. }
  split; [ exact Hc | ]. split; [ exact Hs | ].
  split; [ rewrite Hc, Hs; exact Ht | ].
  destruct (latencyColors_legs server client) as [Hc' Hs'].
  assert (Ht' : total (latencyColors server client)
                = total (latencyColors client server)).
  { apply severity_inj. rewrite !severity_total. lia. }
  rewrite Hc, Hs, <- Ht', <- Hc', <- Hs'.
  destruct (latencyColors server client); reflexivity.
Qed.

(** X14.  The classification is monotone: when neither latency decreases,
    no colour gets better, neither the client's, nor the server's, nor the
    total. *)
Theorem X14_latencyColors_monotone (client server client' server' : Z)
    (Hclient : client <= client') (Hserver : server <= server') :
  severity (LatencyDiagnostic.client (latencyColors client server))
  <= severity (LatencyDiagnostic.client (latencyColors client' server')) /\
  severity (LatencyDiagnostic.server (latencyColors client server))
  <= severity (LatencyDiagnostic.server (latencyColors client' server')) /\
  severity (total (latencyColors client server))
  <= severity (total (latencyColors client' server')).
Proof.
  destruct (latencyColors_legs client server) as [-> ->].
  destruct (latencyColors_legs client' server') as [-> ->].
  rewrite !severity_total, !severity_colorForLatency.
  destruct (Z.geb_spec client 400), (Z.geb_spec server 400),
           (Z.geb_spec client 150), (Z.geb_spec server 150),
           (Z.geb_spec client' 400), (Z.geb_spec server' 400),
           (Z.geb_spec client' 150), (Z.geb_spec server' 150);
    lia.
Qed.

Lemma X14_witness :
  140 <= 150 /\ 399 <= 400 /\
  severity (total (latencyColors 140 399)) <= severity (total (latencyColors 150 400)).
Proof.
  split; [ lia | ]. split; [ lia | ].
  apply (X14_latencyColors_monotone 140 399 150 400); lia.
Defined.

(** X15.  For non-negative latencies the total colour is never worse than
    the colour of the combined latency, and it can be better: two legs that
    are each below the warning threshold give a total of ok however large
    their sum is, whereas their sum is coloured warn from 150 on. *)
Theorem X15_total_not_worse_than_sum (client server : Z)
    (Hclient : 0 <= client) (Hserver : 0 <= server) :
  severity (total (latencyColors client server))
  <= severity (colorForLatency (client + server)) /\
  (client < 150 -> server < 150 ->
   total (latencyColors client server) = ok /\
   (150 <= client + server -> colorForLatency (client + server) = warn)).
Proof.
  split.
  - rewrite severity_total, !severity_colorForLatency.
    destruct (Z.geb_spec client 400), (Z.geb_spec server 400),
             (Z.geb_spec client 150), (Z.geb_spec server 150),
             (Z.geb_spec (client + server) 400), (Z.geb_spec (client + server) 150);
      lia.
  - intros Hc Hs. split.
    + apply severity_inj. rewrite severity_total, !severity_colorForLatency.
      destruct (Z.geb_spec client 400), (Z.geb_spec server 400),
               (Z.geb_spec client 150), (Z.geb_spec server 150); cbn; lia.
    + intros Hsum. apply severity_inj. rewrite severity_colorForLatency.
      destruct (Z.geb_spec (client + server) 400), (Z.geb_spec (client + server) 150);
        cbn; lia.
Qed.

Lemma X15_witness :
  0 <= 100 /\ 0 <= 120 /\
  total (latencyColors 100 120) = ok /\ colorForLatency (100 + 120) = warn.
Proof.
  split; [ lia | ]. split; [ lia | ].
  destruct (X15_total_not_worse_than_sum 100 120) as [_ H]; try lia.
  destruct H as [H1 H2]; try lia.
  split; [ exact H1 | apply H2; lia ].
Defined.

End ColourProperties.

(* ================================================================== *)
(** * ActionBar.tsx: the colour of a latency in the action bar *)

Module ActionBar.

(** [function colorForLatency(l: number): string]. *)
Definition colorForLatency (l : Z) : string :=
  if l >? 400 then "dataVisualisation.tertiary.abbey"
  else if l >? 150 then "dataVisualisation.tertiary.sunflower"
  else "dataVisualisation.tertiary.caribbean".

End ActionBar.

(** The values of [enum latencyColor] of LatencyDiagnostic.tsx. *)
Definition colorValue (c : LatencyDiagnostic.latencyColor) : string :=
  match c with
  | LatencyDiagnostic.ok => "dataVisualisation.tertiary.caribbean"
  | LatencyDiagnostic.warn => "dataVisualisation.tertiary.abbey"
  | LatencyDiagnostic.error => "dataVisualisation.tertiary.sunflower"
  end.

(** X16.  The action bar and the latency diagnostic colour a latency
    differently: the action bar's thresholds are exclusive and its two
    upper colours are the other way round, so the two components give the
    same colour exactly for latencies below 150 and for the latency 400. *)
Theorem X16_action_bar_colour_agreement (l : Z) :
  ActionBar.colorForLatency l = colorValue (LatencyDiagnostic.colorForLatency l)
  <-> (l < 150 \/ l = 400).
Proof.
  unfold ActionBar.colorForLatency, LatencyDiagnostic.colorForLatency,
    LatencyDiagnostic.errorThreshold, LatencyDiagnostic.warnThreshold.
  destruct (Z.gtb_spec l 400), (Z.gtb_spec l 150),
           (Z.geb_spec l 400), (Z.geb_spec l 150);
    try lia; cbn [colorValue];
    (split; [ intros Hx; try discriminate Hx; lia
            | intros Hx; try reflexivity; lia ]).
Qed.

(* ================================================================== *)
(** * monitor.go: [SSHPinger] *)

Module SSH.

(** The arguments of [SendRequest(ctx, name, wantReply, payload)]; a [nil]
    payload is [None]. *)
Record Request := mkRequest {
  reqName    : string;
  wantReply  : bool;
  reqPayload : option string }.

(** What [SendRequest] returns: [(bool, []byte, error)]. *)
Record Reply := mkReply {
  accepted  : bool;
  replyData : string;
  replyErr  : option Error }.

(** [type SSHClient interface], seen as the answer to a request. *)
Definition SSHClient := Request -> Reply.

Record SSHPinger := mkSSHPinger {
  clt      : SSHClient;
  sshClock : Clock }.

Definition NewSSHPinger (clock : option Clock) (clt : option SSHClient)
  : option SSHPinger * option Error :=
  match clt with
  | None => (None, Some (BadParameter "ssh client not provided to SSHPinger"))
  | Some clt =>
      let clock := match clock with None => RealClock | Some c => c end in
      (Some (mkSSHPinger clt clock), None)
  end.

(** An error with the message [trace.Wrap] adds; [trace.Wrap] of a [nil]
    error is [nil]. *)
Inductive Wrapped := Wrap (err : Error) (msg : string).

Section Ping.
(** [teleport.KeepAliveReqType], a constant declared outside these
    sources. *)
Variable KeepAliveReqType : string.

(** [(s *SSHPinger) Ping(ctx)]: the request it sends and the error it
    returns. *)
Definition Ping (s : SSHPinger) : Request * option Wrapped :=
  let req := mkRequest KeepAliveReqType true None in
  match replyErr (clt s req) with
  | None => (req, None)
  | Some err => (req, Some (Wrap err (String.append "sending request " KeepAliveReqType)))
  end.
End Ping.

End SSH.

(** What [pingLoop] makes of the error that [pinger.Ping(ctx)] returns, the
    clock reading [now] at that moment. *)
Definition pingOutcome {E} (err : option E) (now : Time) : PingResult :=
  match err with None => PingOk now | Some _ => PingErr end.

(** X17.  A leg measured with an [SSHPinger]: each ping sends one request,
    the keep-alive request with a reply wanted and no payload; when
    [SendRequest] returns no error the measurement is stored, also when the
    peer's reply is negative, and when [SendRequest] returns an error the
    stored value stays as it was.  The pinger is the one [NewSSHPinger]
    builds from a client that is present. *)
Theorem X17_ssh_ping_measures_unless_send_fails
    (keepAlive : string) (clock : option Clock) (client : SSH.SSHClient)
    (p : SSH.SSHPinger) (s : State) (l : Leg) (then_ now : Time)
    (Hnew : SSH.NewSSHPinger clock (Some client) = (Some p, None))
    (Hping : loopOf l s = InPing then_) :
  let req := SSH.mkRequest keepAlive true None in
  fst (SSH.Ping keepAlive p) = req /\
  exists s',
    step s (PingReturn l (pingOutcome (snd (SSH.Ping keepAlive p)) now)) = Some s' /\
    latencyOf l (mon s')
    = match SSH.replyErr (client req) with
      | None => Milliseconds (Sub now then_)
      | Some _ => latencyOf l (mon s)
      end /\
    loopOf l s' = AtSelect.
Proof.
  intros req. cbn in Hnew. injection Hnew as <-.
  unfold SSH.Ping; cbn [SSH.clt]. fold req.
  destruct (SSH.replyErr (client req)) as [err | ]; cbn [fst snd pingOutcome];
    (split; [ reflexivity | ]);
    destruct s as [m d r cc sc cl sl tr]; destruct l; cbn in Hping; subst;
    eexists; cbn; repeat split.
Qed.

(** A peer that answers the keep-alive with a negative reply and no
    error. *)
Definition refusing_peer : SSH.SSHClient :=
  fun _ => SSH.mkReply false "" None.

Lemma X17_witness :
  exists s',
    step client_pinging
         (PingReturn ClientLeg
            (pingOutcome
               (snd (SSH.Ping "keepalive@openssh.com"
                              (SSH.mkSSHPinger refusing_peer RealClock)))
               26000000)) = Some s' /\
    latencyOf ClientLeg (mon s') = 25.
Proof.
  destruct (X17_ssh_ping_measures_unless_send_fails
              "keepalive@openssh.com" None refusing_peer
              (SSH.mkSSHPinger refusing_peer RealClock)
              client_pinging ClientLeg 1000000 26000000 eq_refl eq_refl)
    as (_ & s' & Hstep & Hl & _).
  exists s'. split; [ exact Hstep | exact Hl ].
Defined.

(* ================================================================== *)
(** * [generateAndSaveCert]: writing a certificate through a temporary file *)

Module Teleterm.

(** [tls.Certificate]; [emptyCertificate] is [tls.Certificate{}]. *)
Inductive Certificate :=
| emptyCertificate
| keyPairOf (cert key : string).

(** The PEM pair that [cert.GenerateSelfSignedCert] returns. *)
Record Credentials := mkCredentials {
  Cert       : string;
  PrivateKey : string }.

(** The calls [generateAndSaveCert] makes on the operating system and on the
    certificate libraries. *)
Inductive Call :=
| CreateTemp (targetPath : string)
    (* [os.CreateTemp(filepath.Dir(targetPath), filepath.Base(targetPath))] *)
| GenerateSelfSignedCert (hosts : list string) (eku : list Z)
| Chmod (name : string) (mode : Z)
| Write_ (name : string) (data : string)
| Close (name : string)
| Rename (oldpath newpath : string)
| X509KeyPair (cert key : string)
| Remove (name : string).

(** What these calls answer: the name of the temporary file, the
    credentials, the key pair, or an error. *)
Record Answers := mkAnswers {
  createTemp : Error + string;
  generate   : Error + Credentials;
  chmod      : option Error;
  write      : option Error;
  close      : option Error;
  rename     : option Error;
  keyPair    : Error + Certificate }.

(** An error as [trace.Wrap(err)] or [trace.Wrap(err, msg)] returns it. *)
Inductive Wrapped := Wrap (err : Error) (msg : string).

Definition Result : Type := (Certificate * option Wrapped) * list Call.

(** [func generateAndSaveCert(targetPath string, eku ...x509.ExtKeyUsage)];
    the calls are listed oldest first, the deferred [os.Remove] last. *)
Definition generateAndSaveCert (a : Answers) (targetPath : string) (eku : list Z)
  : Result :=
  match createTemp a with
  | inl err => ((emptyCertificate, Some (Wrap err "")), [CreateTemp targetPath])
  | inr tempFile =>
      (* defer os.Remove(tempFile.Name()) *)
      let leave (r : Certificate * option Wrapped) (calls : list Call) : Result :=
        (r, CreateTemp targetPath :: calls ++ [Remove tempFile]) in
      let c1 := [GenerateSelfSignedCert ["localhost"%string] eku] in
      match generate a with
      | inl err =>
          leave (emptyCertificate,
                 Some (Wrap err "failed to generate the certificate")) c1
      | inr cert =>
          let c2 := c1 ++ [Chmod tempFile 384 (* 0600 *)] in
          match chmod a with
          | Some err => leave (emptyCertificate, Some (Wrap err "")) c2
          | None =>
              let c3 := c2 ++ [Write_ tempFile (Cert cert)] in
              match write a with
              | Some err => leave (emptyCertificate, Some (Wrap err "")) c3
              | None =>
                  let c4 := c3 ++ [Close tempFile] in
                  match close a with
                  | Some err => leave (emptyCertificate, Some (Wrap err "")) c4
                  | None =>
                      let c5 := c4 ++ [Rename tempFile targetPath] in
                      match rename a with
                      | Some err => leave (emptyCertificate, Some (Wrap err "")) c5
                      | None =>
                          let c6 := c5 ++ [X509KeyPair (Cert cert) (PrivateKey cert)] in
                          match keyPair a with
                          | inl err => leave (emptyCertificate, Some (Wrap err "")) c6
                          | inr certificate => leave (certificate, None) c6
                          end
                      end
                  end
              end
          end
      end
  end.

Definition isRename (c : Call) : bool :=
  match c with Rename _ _ => true | _ => false end.

Definition isRemove (c : Call) : bool :=
  match c with Remove _ => true | _ => false end.

Definition isClose (c : Call) : bool :=
  match c with Close _ => true | _ => false end.

End Teleterm.

Section CertificateFile.
Import Teleterm.

(** X18.  [generateAndSaveCert] touches the target path only by a rename of
    the temporary file, and only after the certificate has been generated
    and the temporary file has been given mode 0600, written with the
    certificate and closed, all without error: whenever a rename is among
    its calls, the calls start with exactly these steps in this order. *)
Theorem X18_rename_only_after_complete_write
    (a : Answers) (targetPath : string) (eku : list Z) (oldpath newpath : string)
    (Hrename : In (Rename oldpath newpath)
                  (snd (generateAndSaveCert a targetPath eku))) :
  exists tempFile cert rest,
    createTemp a = inr tempFile /\ generate a = inr cert /\
    chmod a = None /\ write a = None /\ close a = None /\
    oldpath = tempFile /\ newpath = targetPath /\
    snd (generateAndSaveCert a targetPath eku)
    = [ CreateTemp targetPath;
        GenerateSelfSignedCert ["localhost"%string] eku;
        Chmod tempFile 384;
        Write_ tempFile (Cert cert);
        Close tempFile;
        Rename tempFile targetPath ] ++ rest /\
    existsb isRename rest = false.
Proof.
  unfold generateAndSaveCert in *.
  destruct (createTemp a) as [e0 | tempFile]; cbn in Hrename.
  { destruct Hrename as [H | []]; discriminate H. }
  destruct (generate a) as [e1 | cert]; cbn in Hrename.
  { repeat (destruct Hrename as [H | Hrename]; [ discriminate H | ]); destruct Hrename. }
  destruct (chmod a) as [e2 | ]; cbn in Hrename.
  { repeat (destruct Hrename as [H | Hrename]; [ discriminate H | ]); destruct Hrename. }
  destruct (write a) as [e3 | ]; cbn in Hrename.
  { repeat (destruct Hrename as [H | Hrename]; [ discriminate H | ]); destruct Hrename. }
  destruct (close a) as [e4 | ]; cbn in Hrename.
  { repeat (destruct Hrename as [H | Hrename]; [ discriminate H | ]); destruct Hrename. }
  exists tempFile, cert.
  assert (Hpaths : oldpath = tempFile /\ newpath = targetPath).
  { destruct (rename a) as [e5 | ]; [ | destruct (keyPair a) as [e6 | kp] ];
      cbn in Hrename;
      repeat (destruct Hrename as [H | Hrename];
              [ try discriminate H; injection H as <- <-; split; reflexivity | ]);
      destruct Hrename. }
  destruct Hpaths as [-> ->].
  destruct (rename a) as [e5 | ]; [ | destruct (keyPair a) as [e6 | kp] ];
    cbn; eexists; repeat split.
Qed.

(** Every step succeeds. *)
Definition all_fine : Answers :=
  mkAnswers (inr "/certs/tshd.crt123"%string)
            (inr (mkCredentials "CERT" "KEY"))
            None None None None
            (inr (keyPairOf "CERT" "KEY")).

Lemma X18_witness :
  In (Rename "/certs/tshd.crt123" "/certs/tshd.crt")
     (snd (generateAndSaveCert all_fine "/certs/tshd.crt" [])) /\
  exists rest,
    snd (generateAndSaveCert all_fine "/certs/tshd.crt" [])
    = [ CreateTemp "/certs/tshd.crt";
        GenerateSelfSignedCert ["localhost"%string] [];
        Chmod "/certs/tshd.crt123" 384;
        Write_ "/certs/tshd.crt123" "CERT";
        Close "/certs/tshd.crt123";
        Rename "/certs/tshd.crt123" "/certs/tshd.crt" ] ++ rest.
Proof.
  assert (H : In (Rename "/certs/tshd.crt123" "/certs/tshd.crt")
                 (snd (generateAndSaveCert all_fine "/certs/tshd.crt" []))).
  { cbn. do 5 right. left. reflexivity. }
  split; [ exact H | ].
  destruct (X18_rename_only_after_complete_write all_fine _ _ _ _ H)
    as (tempFile & cert & rest & H1 & H2 & _ & _ & _ & _ & _ & H8 & _).
  injection H1 as <-. injection H2 as <-.
  exists rest. exact H8.
Defined.

End CertificateFile.

Section CertificateCleanup.
Import Teleterm.

(** Every call answers without error. *)
Definition all_succeed (a : Answers) : Prop :=
  (exists tempFile, createTemp a = inr tempFile) /\
  (exists cert, generate a = inr cert) /\
  chmod a = None /\ write a = None /\ close a = None /\ rename a = None /\
  (exists certificate, keyPair a = inr certificate).

(** X19.  [generateAndSaveCert] returns no error exactly when every step
    succeeds, and then returns the key pair of the generated credentials;
    on every error it returns the empty certificate.  When the temporary
    file could not be created nothing else is called; once it is created,
    it is removed exactly once, as the last call, on every path.  The
    temporary file is closed only when it was written without error; and
    when only the final key-pair step fails, the error is returned although
    the target has already been replaced. *)
Theorem X19_cleanup_and_result (a : Answers) (targetPath : string) (eku : list Z) :
  let r := generateAndSaveCert a targetPath eku in
  let certificate := fst (fst r) in
  let err := snd (fst r) in
  let calls := snd r in
  (err = None <-> all_succeed a) /\
  (err = None -> keyPair a = inr certificate) /\
  (err <> None -> certificate = emptyCertificate) /\
  (forall e, createTemp a = inl e -> calls = [CreateTemp targetPath]) /\
  (forall tempFile,
     createTemp a = inr tempFile ->
     exists mid,
       calls = CreateTemp targetPath :: mid ++ [Remove tempFile] /\
       existsb isRemove mid = false) /\
  (existsb isClose calls = true <->
   (exists tempFile, createTemp a = inr tempFile) /\
   (exists cert, generate a = inr cert) /\ chmod a = None /\ write a = None) /\
  (forall e,
     (exists tempFile, createTemp a = inr tempFile) ->
     (exists cert, generate a = inr cert) ->
     chmod a = None -> write a = None -> close a = None -> rename a = None ->
     keyPair a = inl e ->
     err = Some (Wrap e "") /\ existsb isRename calls = true).
Proof.
  unfold all_succeed, generateAndSaveCert.
  destruct (createTemp a) as [e0 | tempFile];
    [ | destruct (generate a) as [e1 | cert];
        [ | destruct (chmod a) as [e2 | ];
            [ | destruct (write a) as [e3 | ];
                [ | destruct (close a) as [e4 | ];
                    [ | destruct (rename a) as [e5 | ];
                        [ | destruct (keyPair a) as [e6 | kp] ] ] ] ] ] ];
    cbv zeta; cbn [fst snd];
    (split; [ split; [ intros Hx; try discriminate Hx; repeat split; eauto
                     | intros (H1 & H2 & H3 & H4 & H5 & H6 & H7);
                       try discriminate;
                       try (destruct H1 as [? H1]; discriminate H1);
                       try (destruct H2 as [? H2]; discriminate H2);
                       try (destruct H7 as [? H7]; discriminate H7);
                       reflexivity ] | ]);
    (split; [ intros Hx; try discriminate Hx; reflexivity | ]);
    (split; [ intros Hx; try reflexivity; exfalso; apply Hx; reflexivity | ]);
    (split; [ intros e Hx; try discriminate Hx; reflexivity | ]);
    (split; [ intros tf Hx; try discriminate Hx; injection Hx as <-;
              eexists; split; reflexivity | ]);
    (split; [ split; [ intros Hx; cbn in Hx; try discriminate Hx;
                       repeat split; eauto
                     | intros (H1 & H2 & H3 & H4);
                       try discriminate;
                       try (destruct H1 as [? H1]; discriminate H1);
                       try (destruct H2 as [? H2]; discriminate H2);
                       reflexivity ] | ]);
    intros e Ht Hg Hc Hw Hcl Hr Hk;
    try discriminate;
    try (destruct Ht as [? Ht]; discriminate Ht);
    try (destruct Hg as [? Hg]; discriminate Hg);
    injection Hk as <-; split; reflexivity.
Qed.

End CertificateCleanup.
